(** * nbconvert.preprocessors.csshtmlheader

    A shallow embedding of [CSSHTMLHeaderPreprocessor] (Python 3 semantics,
    POSIX paths) and the properties of its CSS header assembly:
    change detection by content hash, the memoised default hash, the
    frame of the [resources] update, error propagation and file reads. *)

From Stdlib Require Import NArith Strings.Byte Ascii String List Lia.
From stdpp Require Import gmap list.

Local Open Scope N_scope.

(** ** Bytes and text

    [bytes] is a Python [bytes] object.  [pystr] is a Python 3 [str]:
    a sequence of Unicode code points. *)

Abbreviation bytes := (list byte).
Abbreviation pystr := (list N).

Definition str (s : string) : pystr :=
  map N_of_ascii (list_ascii_of_string s).

Definition byte_val (b : byte) : N := Byte.to_N b.

Definition byte_of (n : N) : byte :=
  match Byte.of_N (n mod 256) with
  | Some b => b
  | None => x00
  end.

#[global] Instance byte_eq_dec : EqDecision byte := Byte.byte_eq_dec.

(** ** hashlib.md5 (RFC 1321) on 32-bit words held in [N] *)

Module MD5.

Definition mask32 : N := 4294967295.

Definition add32 (a b : N) : N := N.land (a + b) mask32.

Definition not32 (a : N) : N := N.lxor a mask32.

Definition rotl32 (x c : N) : N :=
  N.land (N.lor (N.shiftl x c) (N.shiftr x (32 - c))) mask32.

Definition S_table : list N :=
  [7; 12; 17; 22; 7; 12; 17; 22; 7; 12; 17; 22; 7; 12; 17; 22;
   5; 9; 14; 20; 5; 9; 14; 20; 5; 9; 14; 20; 5; 9; 14; 20;
   4; 11; 16; 23; 4; 11; 16; 23; 4; 11; 16; 23; 4; 11; 16; 23;
   6; 10; 15; 21; 6; 10; 15; 21; 6; 10; 15; 21; 6; 10; 15; 21].

Definition K_table : list N :=
  [3614090360; 3905402710; 606105819; 3250441966;
   4118548399; 1200080426; 2821735955; 4249261313;
   1770035416; 2336552879; 4294925233; 2304563134;
   1804603682; 4254626195; 2792965006; 1236535329;
   4129170786; 3225465664; 643717713; 3921069994;
   3593408605; 38016083; 3634488961; 3889429448;
   568446438; 3275163606; 4107603335; 1163531501;
   2850285829; 4243563512; 1735328473; 2368359562;
   4294588738; 2272392833; 1839030562; 4259657740;
   2763975236; 1272893353; 4139469664; 3200236656;
   681279174; 3936430074; 3572445317; 76029189;
   3654602809; 3873151461; 530742520; 3299628645;
   4096336452; 1126891415; 2878612391; 4237533241;
   1700485571; 2399980690; 4293915773; 2240044497;
   1873313359; 4264355552; 2734768916; 1309151649;
   4149444226; 3174756917; 718787259; 3951481745].

Definition word_state : Type := N * N * N * N.

Definition init_state : word_state :=
  (1732584193, 4023233417, 2562383102, 271733878).

(** Little-endian packing of bytes into 32-bit words and back. *)
Fixpoint le_words (bs : list N) : list N :=
  match bs with
  | b0 :: b1 :: b2 :: b3 :: r =>
      (b0 + N.shiftl b1 8 + N.shiftl b2 16 + N.shiftl b3 24) :: le_words r
  | _ => []
  end.

Definition le32 (w : N) : bytes :=
  [byte_of w; byte_of (N.shiftr w 8);
   byte_of (N.shiftr w 16); byte_of (N.shiftr w 24)].

Definition le64 (w : N) : list N :=
  map (fun k => N.shiftr w (8 * k) mod 256) [0; 1; 2; 3; 4; 5; 6; 7].

(** The mixing function and message index of step [i]. *)
Definition mix (i B C D : N) : N * N :=
  if i <? 16 then (N.lor (N.land B C) (N.land (not32 B) D), i)
  else if i <? 32 then
    (N.lor (N.land D B) (N.land (not32 D) C), (5 * i + 1) mod 16)
  else if i <? 48 then (N.lxor (N.lxor B C) D, (3 * i + 5) mod 16)
  else (N.lxor C (N.lor B (not32 D)), (7 * i) mod 16).

Fixpoint steps (n : nat) (i : N) (M : list N) (st : word_state)
  : word_state :=
  match n with
  | O => st
  | S n' =>
      let '(A, B, C, D) := st in
      let '(F, g) := mix i B C D in
      let F' := add32 (add32 (add32 F A) (nth (N.to_nat i) K_table 0))
                  (nth (N.to_nat g) M 0) in
      let B' := add32 B (rotl32 F' (nth (N.to_nat i) S_table 0)) in
      steps n' (i + 1) M (D, B', B, C)
  end.

Definition compress (st : word_state) (block : list N) : word_state :=
  let '(a0, b0, c0, d0) := st in
  let '(A, B, C, D) := steps 64 0 (le_words block) st in
  (add32 a0 A, add32 b0 B, add32 c0 C, add32 d0 D).

(** RFC 1321 padding: a one bit, zeros up to 56 mod 64, then the
    message length in bits as 64 little-endian bits. *)
Definition padding (len : N) : list N :=
  128 :: repeat 0 (N.to_nat ((119 - len mod 64) mod 64))
      ++ le64 ((8 * len) mod 18446744073709551616).

(** [update] feeds bytes through a 64-byte buffer, as the streaming
    interface of hashlib does. *)
Definition absorb (acc : word_state * list N) (b : N)
  : word_state * list N :=
  let '(st, buf) := acc in
  let buf' := buf ++ [b] in
  if (length buf' =? 64)%nat then (compress st buf', []) else (st, buf').

Definition update (acc : word_state * list N) (data : list N)
  : word_state * list N :=
  fold_left absorb data acc.

Definition digest (data : bytes) : bytes :=
  let msg := map byte_val data in
  let '(a, b, c, d) :=
    fst (update (init_state, []) (msg ++ padding (N.of_nat (length msg)))) in
  le32 a ++ le32 b ++ le32 c ++ le32 d.

End MD5.

Definition ascii_bytes (s : string) : bytes :=
  map byte_of_ascii (list_ascii_of_string s).

(** ** Codecs and newline translation of text-mode files *)

Definition is_cont (b : byte) : bool :=
  (128 <=? byte_val b) && (byte_val b <? 192).

Definition cont_bits (b : byte) : N := N.land (byte_val b) 63.

Definition is_surrogate (cp : N) : bool := (55296 <=? cp) && (cp <? 57344).

(** The strict [utf-8] codec: no overlong forms, no surrogates, nothing
    above U+10FFFF. *)
Fixpoint utf8_decode (bs : bytes) : option pystr :=
  match bs with
  | [] => Some []
  | b0 :: r =>
      let c0 := byte_val b0 in
      if c0 <? 128 then cons c0 <$> utf8_decode r
      else if (192 <=? c0) && (c0 <? 224) then
        match r with
        | b1 :: r1 =>
            let cp := N.shiftl (N.land c0 31) 6 + cont_bits b1 in
            if is_cont b1 && (128 <=? cp)
            then cons cp <$> utf8_decode r1 else None
        | _ => None
        end
      else if (224 <=? c0) && (c0 <? 240) then
        match r with
        | b1 :: b2 :: r2 =>
            let cp := N.shiftl (N.land c0 15) 12
                      + N.shiftl (cont_bits b1) 6 + cont_bits b2 in
            if is_cont b1 && is_cont b2 && (2048 <=? cp)
               && negb (is_surrogate cp)
            then cons cp <$> utf8_decode r2 else None
        | _ => None
        end
      else if (240 <=? c0) && (c0 <? 248) then
        match r with
        | b1 :: b2 :: b3 :: r3 =>
            let cp := N.shiftl (N.land c0 7) 18
                      + N.shiftl (cont_bits b1) 12
                      + N.shiftl (cont_bits b2) 6 + cont_bits b3 in
            if is_cont b1 && is_cont b2 && is_cont b3
               && (65536 <=? cp) && (cp <=? 1114111)
            then cons cp <$> utf8_decode r3 else None
        | _ => None
        end
      else None
  end.

(** [u.encode('utf-8', 'replace')]: a lone surrogate becomes [?]. *)
Definition utf8_encode_cp (cp : N) : bytes :=
  if cp <? 128 then [byte_of cp]
  else if cp <? 2048 then
    [byte_of (192 + N.shiftr cp 6); byte_of (128 + N.land cp 63)]
  else if is_surrogate cp then [x3f]
  else if cp <? 65536 then
    [byte_of (224 + N.shiftr cp 12);
     byte_of (128 + N.land (N.shiftr cp 6) 63);
     byte_of (128 + N.land cp 63)]
  else
    [byte_of (240 + N.shiftr cp 18);
     byte_of (128 + N.land (N.shiftr cp 12) 63);
     byte_of (128 + N.land (N.shiftr cp 6) 63);
     byte_of (128 + N.land cp 63)].

Definition utf8_encode_replace (s : pystr) : bytes :=
  concat (map utf8_encode_cp s).

(** Universal newlines ([newline=None] on input): CR LF and a lone CR
    both become LF. *)
Fixpoint universal_newlines (s : pystr) : pystr :=
  match s with
  | [] => []
  | c :: r =>
      if c =? 13 then
        10 :: match r with
              | c' :: r' =>
                  if c' =? 10 then universal_newlines r'
                  else universal_newlines r
              | [] => []
              end
      else c :: universal_newlines r
  end.

(** ** os.path (posixpath) *)

Definition sep : N := 47.

Definition startswith_sep (p : pystr) : bool :=
  match p with
  | c :: _ => c =? sep
  | [] => false
  end.

Definition endswith_sep (p : pystr) : bool :=
  match last p with
  | Some c => c =? sep
  | None => false
  end.

Definition join_step (path b : pystr) : pystr :=
  if startswith_sep b then b
  else if bool_decide (path = []) || endswith_sep path then path ++ b
  else path ++ sep :: b.

Definition os_path_join (a : pystr) (p : list pystr) : pystr :=
  fold_left join_step p a.

(** The file system maps a path to what the OS finds there. *)
Inductive node : Type :=
  | File (readable : bool) (content : bytes)
  | Dir.

Abbreviation filesystem := (gmap pystr node).

Definition os_path_isfile (fs : filesystem) (p : pystr) : bool :=
  match fs !! p with
  | Some (File _ _) => true
  | _ => false
  end.

(** ** Python values held in the [resources] dictionary *)

#[local] Set Warnings "-register-all".

Inductive value : Type :=
  | VNone
  | VStr (s : pystr)
  | VList (l : list value)
  | VDict (d : gmap pystr value).

Definition truthy (p : option pystr) : bool :=
  match p with
  | Some (_ :: _) => true
  | _ => false
  end.

(** ** Exceptions, state and the monad of the preprocessor *)

Inductive exn : Type :=
  | KeyError (key : pystr)
  | TypeError
  | OSError (filename : pystr)
  | UnicodeDecodeError.

Inductive result (A : Type) : Type :=
  | Ok (a : A)
  | Raise (e : exn).

Arguments Ok {A} a.
Arguments Raise {A} e.

(** What the process provides around the class: the directory of the
    [nbconvert.resources] package, the outcome of
    [from notebook import DEFAULT_STATIC_FILES_PATH] ([None] when the
    import fails), the locale codec used by the builtin [open],
    [ipython_genutils.py3compat.str_to_bytes] and the Pygments style
    sheet generator. *)
Record environment : Type := {
  resources_dir : pystr;
  DEFAULT_STATIC_FILES_PATH : option pystr;
  locale_decode : bytes -> option pystr;
  str_to_bytes : pystr -> bytes;
  get_style_defs : pystr -> pystr
}.

(** The attributes of a [CSSHTMLHeaderPreprocessor] object. *)
Record instance : Type := {
  highlight_class : pystr;
  _default_css_hash : option bytes
}.

(** The place in the source that opens a file: line 61, line 90 called
    from line 81, line 90 called from line 82, line 83. *)
Inductive read_site : Type :=
  | sheet_read
  | default_hash_read
  | custom_hash_read
  | custom_read.

#[global] Instance read_site_eq_dec : EqDecision read_site.
Proof. solve_decision. Defined.

Abbreviation read_event := (read_site * pystr * bool)%type.

Record state : Type := {
  self : instance;
  resources : gmap pystr value;
  reads : list read_event
}.

Definition M (A : Type) : Type := state -> state * result A.

Definition ret {A} (a : A) : M A := fun st => (st, Ok a).

Definition raise {A} (e : exn) : M A := fun st => (st, Raise e).

Definition bind {A B} (m : M A) (k : A -> M B) : M B :=
  fun st =>
    match m st with
    | (st', Ok a) => k a st'
    | (st', Raise e) => (st', Raise e)
    end.

Notation "x <- m ;; k" := (bind m (fun x => k))
  (at level 100, m at next level, right associativity).
Notation "m ;; k" := (bind m (fun _ => k))
  (at level 100, right associativity).

Definition get_self : M instance := fun st => (st, Ok (self st)).

Definition set_default_css_hash (h : bytes) : M unit :=
  fun st =>
    ({| self := {| highlight_class := highlight_class (self st);
                   _default_css_hash := Some h |};
        resources := resources st;
        reads := reads st |}, Ok tt).

(** [resources[key]] *)
Definition getitem (key : pystr) : M value :=
  fun st =>
    match resources st !! key with
    | Some v => (st, Ok v)
    | None => (st, Raise (KeyError key))
    end.

(** [resources[key] = v] *)
Definition setitem (key : pystr) (v : value) : M unit :=
  fun st =>
    ({| self := self st;
        resources := <[key := v]> (resources st);
        reads := reads st |}, Ok tt).

(** What opening [filename] and reading all of it as text yields. *)
Definition file_text (decode : bytes -> option pystr) (fs : filesystem)
    (filename : pystr) : result pystr :=
  match fs !! filename with
  | Some (File true content) =>
      match decode content with
      | Some text => Ok (universal_newlines text)
      | None => Raise UnicodeDecodeError
      end
  | _ => Raise (OSError filename)
  end.

Definition completed {A} (r : result A) : bool :=
  match r with
  | Ok _ => true
  | Raise _ => false
  end.

Definition log_read (ev : read_event) : M unit :=
  fun st =>
    ({| self := self st;
        resources := resources st;
        reads := reads st ++ [ev] |}, Ok tt).

(** A [with open(...) as f: f.read()] block; the attempt is recorded
    together with whether [read] returned. *)
Definition read_text (decode : bytes -> option pystr) (fs : filesystem)
    (site : read_site) (filename : pystr) : M pystr :=
  let r := file_text decode fs filename in
  log_read (site, filename, completed r) ;;
  fun st => (st, r).

(** [open(filename).read()]: with no mode given the builtin [open] of
    Python 3 is in text mode, decodes with the locale codec and
    translates line endings. *)
Definition open_read (E : environment) : filesystem -> read_site -> pystr -> M pystr :=
  read_text (locale_decode E).

(** [io.open(filename, encoding='utf-8').read()] *)
Definition io_open_read : filesystem -> read_site -> pystr -> M pystr :=
  read_text utf8_decode.

(** [os.path.join(config_dir, 'custom', 'custom.css')] on a dictionary
    value: only a [str] can be joined with [str] components. *)
Definition join_value (v : value) (p : list pystr) : M pystr :=
  match v with
  | VStr a => ret (os_path_join a p)
  | _ => raise TypeError
  end.

(** ** The class *)

Definition default_highlight_class : pystr := str ".highlight".

(** [Preprocessor.__init__] of the base class sets the configurable
    traits, here [highlight_class]; line 24 clears the cached hash. *)
Definition __init__ (highlight_class : pystr) : instance :=
  {| highlight_class := highlight_class; _default_css_hash := None |}.

Definition _hash (E : environment) (fs : filesystem) (site : read_site)
    (filename : pystr) : M bytes :=
  text <- open_read E fs site filename ;;
  ret (MD5.digest (str_to_bytes E text)).

Definition sheet_filename (E : environment) : pystr :=
  os_path_join (resources_dir E) [str "style.min.css"].

Definition default_css_filename (static : pystr) : pystr :=
  os_path_join static [str "custom"; str "custom.css"].

(** Line 80 tests [DEFAULT_STATIC_FILES_PATH] for truth: a [str] is true
    when it is not empty.  Line 82 compares a [bytes] digest with the
    attribute, which is [None] or a digest. *)
Definition _generate_header (E : environment) (fs : filesystem)
    : M (list pystr) :=
  let header := [] in
  sheet <- io_open_read fs sheet_read (sheet_filename E) ;;
  let header := header ++ [sheet] in
  obj <- get_self ;;
  let pygments_css := get_style_defs E (highlight_class obj) in
  let header := header ++ [pygments_css] in
  config_dir <- getitem (str "config_dir") ;;
  custom_css_filename <- join_value config_dir [str "custom"; str "custom.css"] ;;
  if os_path_isfile fs custom_css_filename then
    (obj <- get_self ;;
     match DEFAULT_STATIC_FILES_PATH E, _default_css_hash obj with
     | Some ((_ :: _) as static), None =>
         h <- _hash E fs default_hash_read (default_css_filename static) ;;
         set_default_css_hash h
     | _, _ => ret tt
     end) ;;
    h <- _hash E fs custom_hash_read custom_css_filename ;;
    obj <- get_self ;;
    if bool_decide (Some h ≠ _default_css_hash obj) then
      custom <- io_open_read fs custom_read custom_css_filename ;;
      ret (header ++ [custom])
    else ret header
  else ret header.

(** [resources['inlining']['css'] = header], once the right-hand side
    has been evaluated. *)
Definition set_inlining_css (header : list pystr) : M unit :=
  inlining <- getitem (str "inlining") ;;
  match inlining with
  | VDict d =>
      setitem (str "inlining") (VDict (<[str "css" := VList (map VStr header)]> d))
  | _ => raise TypeError
  end.

Definition preprocess {NB : Type} (E : environment) (fs : filesystem)
    (nb : NB) : M (NB * gmap pystr value) :=
  setitem (str "inlining") (VDict ∅) ;;
  header <- _generate_header E fs ;;
  set_inlining_css header ;;
  fun st => (st, Ok (nb, resources st)).

(** ** An instance across calls

    [after_call] is one more call of [preprocess] on the same object, with
    the file system and the dictionary of that call; [history] collects
    the objects a constructor call followed by any number of calls can
    produce, with every read they made. *)

Definition after_call (E : environment) (fs : filesystem)
    (res : gmap pystr value) (now : instance * list read_event)
    : instance * list read_event :=
  let st' := fst (preprocess E fs tt
                    {| self := now.1; resources := res; reads := now.2 |}) in
  (self st', reads st').

Inductive history (E : environment) : instance -> list read_event -> Prop :=
  | history_init cls : history E (__init__ cls) []
  | history_call obj log fs res :
      history E obj log ->
      history E (after_call E fs res (obj, log)).1
                (after_call E fs res (obj, log)).2.

Definition at_site (site : read_site) (ev : read_event) : bool :=
  bool_decide (ev.1.1 = site).

(** The reads of line 81 that returned: each is one hash of the default
    style sheet computed and stored. *)
Definition default_hash_computations (log : list read_event) : nat :=
  length (List.filter (fun ev => at_site default_hash_read ev && ev.2) log).

(** ** The hash and the blocks, without the bookkeeping *)

Definition file_hash (E : environment) (fs : filesystem) (filename : pystr)
    : result bytes :=
  match file_text (locale_decode E) fs filename with
  | Ok text => Ok (MD5.digest (str_to_bytes E text))
  | Raise e => Raise e
  end.

Definition custom_css_filename (config_dir : pystr) : pystr :=
  os_path_join config_dir [str "custom"; str "custom.css"].

(** [resources['inlining'][key]], when it is there. *)
Definition inlining_item (res : gmap pystr value) (key : pystr)
    : option value :=
  match res !! str "inlining" with
  | Some (VDict d) => d !! key
  | _ => None
  end.

Definition inlining_css (res : gmap pystr value) : option value :=
  inlining_item res (str "css").

Definition css_blocks (header : list pystr) : value := VList (map VStr header).

(** The guards of lines 79 and 82 on the instance as line 81 left it:
    the custom style sheet is a file and its hash is not the cached one. *)
Definition custom_included (E : environment) (fs : filesystem)
    (obj : instance) (config_dir : pystr) : Prop :=
  os_path_isfile fs (custom_css_filename config_dir) = true
  /\ exists h, file_hash E fs (custom_css_filename config_dir) = Ok h
               /\ Some h <> _default_css_hash obj.

(** The state once line 41 has run, and the normal return of line 43
    with [res] as the dictionary. *)
Definition cleared (st : state) : state :=
  {| self := self st;
     resources := <[str "inlining" := VDict ∅]> (resources st);
     reads := reads st |}.

Definition stored {NB} (nb : NB) (st1 : state) (res : gmap pystr value)
    : state * result (NB * gmap pystr value) :=
  ({| self := self st1; resources := res; reads := reads st1 |}, Ok (nb, res)).

(** ** A concrete process: UTF-8 locale, a stand-in for Pygments *)

Definition utf8_env : environment := {|
  resources_dir := str "/pkg/nbconvert/resources";
  DEFAULT_STATIC_FILES_PATH := Some (str "/pkg/notebook/static");
  locale_decode := utf8_decode;
  str_to_bytes := utf8_encode_replace;
  get_style_defs := fun cls => cls ++ str " .hll { background-color: #ffffcc }"
|}.

Definition no_notebook_env : environment := {|
  resources_dir := resources_dir utf8_env;
  DEFAULT_STATIC_FILES_PATH := None;
  locale_decode := utf8_decode;
  str_to_bytes := utf8_encode_replace;
  get_style_defs := get_style_defs utf8_env
|}.

Definition sheet_path : pystr := str "/pkg/nbconvert/resources/style.min.css".
Definition default_path : pystr := str "/pkg/notebook/static/custom/custom.css".
Definition custom_path : pystr := str "/home/u/.jupyter/custom/custom.css".

Definition disk (default custom : bytes) : filesystem :=
  <[sheet_path := File true (ascii_bytes "body{color:red}")]>
    (<[default_path := File true default]>
       (<[custom_path := File true custom]> ∅)).

Definition disk_without_custom : filesystem :=
  <[sheet_path := File true (ascii_bytes "body{color:red}")]>
    (<[default_path := File true (ascii_bytes "X{}")]> ∅).

Definition jupyter_resources : gmap pystr value :=
  <[str "config_dir" := VStr (str "/home/u/.jupyter")]> ∅.

Definition resources_with_js : gmap pystr value :=
  <[str "inlining" := VDict {[str "js" := VList [VStr (str "alert(1)")]]}]>
    jupyter_resources.

Definition start (obj : instance) (res : gmap pystr value) : state :=
  {| self := obj; resources := res; reads := [] |}.

Definition fresh : instance := __init__ default_highlight_class.


Definition lf_css : bytes := ascii_bytes "X{}" ++ [x0a].
Definition crlf_css : bytes := ascii_bytes "X{}" ++ [x0d; x0a].

(** ** What a caller sees of a call, and instances on one file system *)

(** The outcome of a call as the template engine sees it: the value of
    [resources['inlining']['css']] after a normal return, or the
    exception. *)
Definition css_outcome {NB} (p : state * result (NB * gmap pystr value))
    : result (option value) :=
  match p.2 with
  | Ok (_, res) => Ok (inlining_css res)
  | Raise e => Raise e
  end.

Definition sites (log : list read_event) : list read_site :=
  map (fun ev => ev.1.1) log.


(** The objects that a constructor call followed by calls on one and the
    same file system can produce. *)
Inductive history_on (E : environment) (fs : filesystem) : instance -> Prop :=
  | history_on_init cls : history_on E fs (__init__ cls)
  | history_on_call obj log res :
      history_on E fs obj ->
      history_on E fs (after_call E fs res (obj, log)).1.

(** The [latin-1] codec decodes every byte to the code point of the same
    number. *)
Definition latin1_decode (bs : bytes) : option pystr :=
  Some (map byte_val bs).

Definition latin1_env : environment := {|
  resources_dir := resources_dir utf8_env;
  DEFAULT_STATIC_FILES_PATH := DEFAULT_STATIC_FILES_PATH utf8_env;
  locale_decode := latin1_decode;
  str_to_bytes := utf8_encode_replace;
  get_style_defs := get_style_defs utf8_env
|}.

Definition empty_static_env : environment := {|
  resources_dir := resources_dir utf8_env;
  DEFAULT_STATIC_FILES_PATH := Some [];
  locale_decode := utf8_decode;
  str_to_bytes := utf8_encode_replace;
  get_style_defs := get_style_defs utf8_env
|}.

Definition disk_with_node (custom : node) : filesystem :=
  <[sheet_path := File true (ascii_bytes "body{color:red}")]>
    (<[default_path := File true (ascii_bytes "X{}")]>
       (<[custom_path := custom]> ∅)).

(** The strict [ascii] codec, the locale codec of a process in the C
    locale: a byte above 127 cannot be decoded. *)
Definition ascii_decode (bs : bytes) : option pystr :=
  if forallb (fun b => byte_val b <? 128) bs then Some (map byte_val bs)
  else None.

Definition ascii_locale_env : environment := {|
  resources_dir := resources_dir utf8_env;
  DEFAULT_STATIC_FILES_PATH := None;
  locale_decode := ascii_decode;
  str_to_bytes := utf8_encode_replace;
  get_style_defs := get_style_defs utf8_env
|}.

(** A style sheet in UTF-8 with one character outside ASCII (e acute). *)
Definition accent_css : bytes :=
  ascii_bytes "X:after{content:'" ++ [xc3; xa9] ++ ascii_bytes "'}".

(** ** The library models agree with CPython on test vectors *)

Example md5_empty :
  map byte_val (MD5.digest [])
  = [212; 29; 140; 217; 143; 0; 178; 4; 233; 128; 9; 152; 236; 248; 66; 126].
Proof. vm_compute. reflexivity. Qed.

Example md5_abc :
  map byte_val (MD5.digest (ascii_bytes "abc"))
  = [144; 1; 80; 152; 60; 210; 79; 176; 214; 150; 63; 125; 40; 225; 127; 114].
Proof. vm_compute. reflexivity. Qed.

Example md5_two_blocks :
  map byte_val (MD5.digest (repeat x61 70))
  = [15; 92; 108; 78; 116; 11; 252; 192; 140; 60; 38; 204; 178; 103; 61; 70].
Proof. vm_compute. reflexivity. Qed.

Example utf8_decode_euro : utf8_decode [xe2; x82; xac; x41] = Some [8364; 65].
Proof. reflexivity. Qed.

Example utf8_decode_overlong : utf8_decode [xc0; x80] = None.
Proof. reflexivity. Qed.

Example utf8_decode_surrogate : utf8_decode [xed; xa0; x80] = None.
Proof. reflexivity. Qed.

Example utf8_encode_sample :
  map byte_val (utf8_encode_replace [8364; 233; 65; 128512])
  = [226; 130; 172; 195; 169; 65; 240; 159; 152; 128].
Proof. reflexivity. Qed.

Example universal_newlines_sample :
  universal_newlines [97; 13; 10; 98; 13; 99; 10; 13] = [97; 10; 98; 10; 99; 10; 10].
Proof. reflexivity. Qed.

Example os_path_join_sample :
  os_path_join (str "/home/u/.jupyter/") [str "custom"; str "custom.css"]
  = str "/home/u/.jupyter/custom/custom.css"
  /\ os_path_join (str "") [str "custom"; str "custom.css"]
     = str "custom/custom.css"
  /\ os_path_join (str "/a") [str "/b"; str "c"] = str "/b/c".
Proof. repeat split; reflexivity. Qed.

Lemma byte_of_val c : c < 256 -> byte_val (byte_of c) = c.
Proof.
  intros Hc. unfold byte_val, byte_of.
  rewrite N.mod_small by exact Hc.
  destruct (Byte.of_N c) as [b |] eqn:Ho.
  - by apply Byte.to_of_N.
  - apply Byte.of_N_None_iff in Ho. lia.
Qed.

(** On ASCII text the two UTF-8 directions cancel. *)
Lemma utf8_round_trip_ascii s :
  Forall (fun c => c < 128) s ->
  utf8_decode (utf8_encode_replace s) = Some s.
Proof.
  induction 1 as [| c s Hc _ IH]; [reflexivity |].
  unfold utf8_encode_replace in *. cbn [map concat].
  unfold utf8_encode_cp at 1.
  rewrite (proj2 (N.ltb_lt _ _) Hc). cbn [app utf8_decode].
  rewrite byte_of_val by lia.
  rewrite (proj2 (N.ltb_lt _ _) Hc), IH. reflexivity.
Qed.

(** ** Small facts about dictionaries, digests and read logs *)

#[local] Arguments str : simpl never.
#[local] Arguments os_path_join : simpl never.
#[local] Arguments os_path_isfile : simpl never.
#[local] Arguments file_text : simpl never.
#[local] Arguments file_hash : simpl never.
#[local] Arguments MD5.digest : simpl never.
#[local] Arguments inlining_css : simpl never.

Lemma cleared_config_dir st :
  resources (cleared st) !! str "config_dir" = resources st !! str "config_dir".
Proof. simpl. apply lookup_insert_ne. discriminate. Qed.

Lemma inlining_css_insert res d :
  inlining_css (<[str "inlining" := VDict d]> res) = d !! str "css".
Proof. unfold inlining_css, inlining_item. by rewrite lookup_insert_eq. Qed.

Lemma digest_length data : length (MD5.digest data) = 16%nat.
Proof.
  unfold MD5.digest.
  destruct (fst _) as [[[a b] c] d]. reflexivity.
Qed.

Lemma computations_app log ev :
  default_hash_computations (log ++ [ev])
  = (default_hash_computations log
     + if at_site default_hash_read ev && ev.2 then 1 else 0)%nat.
Proof.
  unfold default_hash_computations.
  rewrite List.filter_app, length_app. simpl.
  destruct (at_site default_hash_read ev && ev.2); reflexivity.
Qed.

Lemma at_site_app site log ev :
  List.filter (at_site site) (log ++ [ev])
  = List.filter (at_site site) log ++ (if at_site site ev then [ev] else []).
Proof. rewrite List.filter_app. simpl. by destruct (at_site site ev). Qed.

(** ** Running the monad

    The lemmas of this section are about one call, in one environment and
    on one file system. *)

Section Call.

Context (E : environment) (fs : filesystem).

Lemma read_text_run decode site filename st :
  read_text decode fs site filename st =
  ({| self := self st; resources := resources st;
      reads := reads st ++ [(site, filename, completed (file_text decode fs filename))] |},
   file_text decode fs filename).
Proof. reflexivity. Qed.

Lemma _hash_run site filename st :
  _hash E fs site filename st =
  ({| self := self st; resources := resources st;
      reads := reads st ++ [(site, filename, completed (file_hash E fs filename))] |},
   file_hash E fs filename).
Proof.
  unfold _hash, open_read, file_hash, bind. rewrite read_text_run.
  destruct (file_text (locale_decode E) fs filename); reflexivity.
Qed.

Ltac run_header :=
  unfold _generate_header, io_open_read, bind, get_self, getitem, join_value,
    set_default_css_hash, ret, raise;
  repeat (rewrite ?read_text_run, ?_hash_run; simpl).

(** Case analysis on the innermost scrutinee that blocks evaluation. *)
Ltac split_step :=
  match goal with
  | |- context [match ?x with _ => _ end] =>
      lazymatch x with
      | context [match _ with _ => _ end] => fail
      | _ => destruct x eqn:?
      end
  end.

Ltac split_header :=
  run_header;
  repeat (split_step; simpl; rewrite ?read_text_run, ?_hash_run; simpl).

(** [_generate_header] leaves [resources] and [highlight_class] alone and
    opens at most four files. *)
Lemma generate_header_frame st :
  resources (fst (_generate_header E fs st)) = resources st
  /\ highlight_class (self (fst (_generate_header E fs st)))
     = highlight_class (self st)
  /\ exists new, reads (fst (_generate_header E fs st)) = reads st ++ new
                 /\ (length new <= 4)%nat.
Proof.
  split_header;
    (split; [reflexivity | split; [reflexivity |]]);
    rewrite <- ?app_assoc; simpl;
    (eexists; split; [reflexivity | simpl; lia]).
Qed.

Lemma preprocess_run {NB} (nb : NB) st :
  preprocess E fs nb st =
  match _generate_header E fs (cleared st) with
  | (st1, Ok header) =>
      stored nb st1
        (<[str "inlining" := VDict {[str "css" := css_blocks header]}]>
           (resources st))
  | (st1, Raise e) => (st1, Raise e)
  end.
Proof.
  unfold preprocess, bind at 1 2. unfold setitem at 1. fold (cleared st).
  destruct (generate_header_frame (cleared st)) as (Hres & _ & _).
  destruct (_generate_header E fs (cleared st)) as [st1 [header | e]];
    [| reflexivity].
  simpl in Hres. unfold set_inlining_css, bind, getitem, setitem, stored.
  rewrite Hres, lookup_insert_eq. simpl.
  rewrite Hres, insert_insert_eq, insert_empty. reflexivity.
Qed.

Lemma preprocess_self {NB} (nb : NB) st :
  self (fst (preprocess E fs nb st))
  = self (fst (_generate_header E fs (cleared st)))
  /\ reads (fst (preprocess E fs nb st))
     = reads (fst (_generate_header E fs (cleared st))).
Proof.
  rewrite preprocess_run.
  destruct (_generate_header E fs (cleared st)) as [st1 [header | e]];
    split; reflexivity.
Qed.

(** *** The branches of [_generate_header] *)

Lemma generate_header_without_sheet st e :
  file_text utf8_decode fs (sheet_filename E) = Raise e ->
  _generate_header E fs st =
    ({| self := self st; resources := resources st;
        reads := reads st ++ [(sheet_read, sheet_filename E, false)] |},
     Raise e).
Proof. intros Hb. run_header. rewrite Hb. reflexivity. Qed.

Lemma generate_header_without_config_dir st :
  resources st !! str "config_dir" = None ->
  _generate_header E fs st =
    ({| self := self st; resources := resources st;
        reads := reads st ++
          [(sheet_read, sheet_filename E,
            completed (file_text utf8_decode fs (sheet_filename E)))] |},
     match file_text utf8_decode fs (sheet_filename E) with
     | Ok _ => Raise (KeyError (str "config_dir"))
     | Raise e => Raise e
     end).
Proof.
  intros Hc. run_header.
  destruct (file_text utf8_decode fs (sheet_filename E)); simpl;
    [rewrite Hc |]; reflexivity.
Qed.

Lemma generate_header_without_custom st c base :
  resources st !! str "config_dir" = Some (VStr c) ->
  os_path_isfile fs (custom_css_filename c) = false ->
  file_text utf8_decode fs (sheet_filename E) = Ok base ->
  _generate_header E fs st =
    ({| self := self st; resources := resources st;
        reads := reads st ++ [(sheet_read, sheet_filename E, true)] |},
     Ok [base; get_style_defs E (highlight_class (self st))]).
Proof.
  intros Hc Hf Hb. run_header. rewrite Hb. simpl. rewrite Hc. simpl.
  unfold custom_css_filename in Hf. rewrite Hf. reflexivity.
Qed.

Lemma generate_header_ok st st1 header :
  _generate_header E fs st = (st1, Ok header) ->
  exists base c,
    file_text utf8_decode fs (sheet_filename E) = Ok base
    /\ resources st !! str "config_dir" = Some (VStr c)
    /\ ((header = [base; get_style_defs E (highlight_class (self st))]
         /\ (os_path_isfile fs (custom_css_filename c) = false
             \/ exists h, file_hash E fs (custom_css_filename c) = Ok h
                          /\ Some h = _default_css_hash (self st1)))
        \/ (exists h custom,
              os_path_isfile fs (custom_css_filename c) = true
              /\ file_hash E fs (custom_css_filename c) = Ok h
              /\ Some h <> _default_css_hash (self st1)
              /\ file_text utf8_decode fs (custom_css_filename c) = Ok custom
              /\ header = [base; get_style_defs E (highlight_class (self st));
                           custom])).
Proof.
  unfold custom_css_filename. revert st1 header. split_header;
    intros st1 header [= <- <-]; simpl.
  all: do 2 eexists; (split; [reflexivity |]); (split; [reflexivity |]).
  all: try (left; split; [reflexivity |]; left; assumption).
  all: repeat match goal with
         | H : bool_decide _ = true |- _ => apply bool_decide_eq_true in H
         | H : bool_decide _ = false |- _ =>
             apply bool_decide_eq_false, dec_stable in H
         end.
  all: first
         [ left; split; [reflexivity |]; right; eexists; split; eassumption
         | right; do 2 eexists; repeat split; eassumption ].
Qed.

Lemma generate_header_with_custom st static c base cached hc custom :
  DEFAULT_STATIC_FILES_PATH E = Some static ->
  static <> [] ->
  resources st !! str "config_dir" = Some (VStr c) ->
  os_path_isfile fs (custom_css_filename c) = true ->
  file_text utf8_decode fs (sheet_filename E) = Ok base ->
  match _default_css_hash (self st) with
  | Some h => cached = h
  | None => file_hash E fs (default_css_filename static) = Ok cached
  end ->
  file_hash E fs (custom_css_filename c) = Ok hc ->
  file_text utf8_decode fs (custom_css_filename c) = Ok custom ->
  exists st1,
    _generate_header E fs st =
      (st1, Ok ([base; get_style_defs E (highlight_class (self st))]
                ++ if decide (hc = cached) then [] else [custom]))
    /\ _default_css_hash (self st1) = Some cached.
Proof.
  intros HD Hs Hc Hf Hb Hcached Hh Ht. destruct static as [| x static];
    [done |].
  destruct st as [[cls field] res log]. simpl in *.
  unfold custom_css_filename in *. run_header.
  rewrite Hb. simpl. rewrite Hc. simpl. rewrite Hf, HD.
  destruct field as [h |]; simpl.
  - subst h. rewrite _hash_run, Hh. simpl.
    case_decide as Hd; case_bool_decide as Hb'; simpl;
      rewrite ?read_text_run, ?Ht; simpl;
      try (eexists; split; [reflexivity | done]); congruence.
  - rewrite _hash_run, Hcached. simpl. rewrite _hash_run, Hh. simpl.
    case_decide as Hd; case_bool_decide as Hb'; simpl;
      rewrite ?read_text_run, ?Ht; simpl;
      try (eexists; split; [reflexivity | done]); congruence.
Qed.

Lemma generate_header_without_default st c base h custom :
  truthy (DEFAULT_STATIC_FILES_PATH E) = false ->
  _default_css_hash (self st) = None ->
  resources st !! str "config_dir" = Some (VStr c) ->
  os_path_isfile fs (custom_css_filename c) = true ->
  file_text utf8_decode fs (sheet_filename E) = Ok base ->
  file_hash E fs (custom_css_filename c) = Ok h ->
  file_text utf8_decode fs (custom_css_filename c) = Ok custom ->
  exists st1,
    _generate_header E fs st =
      (st1, Ok [base; get_style_defs E (highlight_class (self st)); custom])
    /\ _default_css_hash (self st1) = None
    /\ reads st1 = reads st ++
         [(sheet_read, sheet_filename E, true);
          (custom_hash_read, custom_css_filename c, true);
          (custom_read, custom_css_filename c, true)].
Proof.
  intros HD Hnone Hc Hf Hb Hh Ht.
  destruct st as [[cls field] res log]. simpl in *. subst field.
  unfold custom_css_filename in *. run_header.
  rewrite Hb. simpl. rewrite Hc. simpl. rewrite Hf.
  destruct (DEFAULT_STATIC_FILES_PATH E) as [[| x static] |];
    try discriminate; simpl;
    rewrite _hash_run, Hh; simpl; rewrite Ht; simpl;
    rewrite <- !app_assoc; simpl;
    (eexists; split; [reflexivity | split; reflexivity]).
Qed.

Lemma generate_header_default_first st static c base :
  DEFAULT_STATIC_FILES_PATH E = Some static ->
  static <> [] ->
  _default_css_hash (self st) = None ->
  resources st !! str "config_dir" = Some (VStr c) ->
  os_path_isfile fs (custom_css_filename c) = true ->
  file_text utf8_decode fs (sheet_filename E) = Ok base ->
  match file_hash E fs (default_css_filename static) with
  | Ok hd =>
      _default_css_hash (self (fst (_generate_header E fs st))) = Some hd
      /\ exists rest,
           reads (fst (_generate_header E fs st)) = reads st ++
             (sheet_read, sheet_filename E, true)
             :: (default_hash_read, default_css_filename static, true)
             :: rest
  | Raise e =>
      _generate_header E fs st =
        ({| self := self st; resources := resources st;
            reads := reads st ++
              [(sheet_read, sheet_filename E, true);
               (default_hash_read, default_css_filename static, false)] |},
         Raise e)
  end.
Proof.
  intros HD Hs Hnone Hc Hf Hb. destruct static as [| x static]; [done |].
  destruct st as [[cls field] res log]. simpl in *. subst field.
  unfold custom_css_filename in *. run_header.
  rewrite Hb. simpl. rewrite Hc. simpl. rewrite Hf, HD. simpl.
  rewrite _hash_run.
  destruct (file_hash E fs (default_css_filename (x :: static))) as [hd | e];
    simpl.
  - rewrite _hash_run.
    destruct (file_hash E fs _) as [hc | e]; simpl;
      [case_bool_decide; simpl; rewrite ?read_text_run;
       try destruct (file_text utf8_decode fs (os_path_join c _)); simpl |];
      (split; [reflexivity |]); rewrite <- !app_assoc; simpl;
      eexists; reflexivity.
  - rewrite <- app_assoc. reflexivity.
Qed.

(** What a call does to the cached hash: a stored digest stays and the
    default is not opened; without one, either nothing is computed or
    exactly one hash of the default is computed and stored. *)
Lemma generate_header_cache st :
  match _default_css_hash (self st) with
  | Some h =>
      _default_css_hash (self (fst (_generate_header E fs st))) = Some h
      /\ List.filter (at_site default_hash_read)
           (reads (fst (_generate_header E fs st)))
         = List.filter (at_site default_hash_read) (reads st)
      /\ default_hash_computations (reads (fst (_generate_header E fs st)))
         = default_hash_computations (reads st)
  | None =>
      (_default_css_hash (self (fst (_generate_header E fs st))) = None
       /\ default_hash_computations (reads (fst (_generate_header E fs st)))
          = default_hash_computations (reads st))
      \/ (exists static h,
            DEFAULT_STATIC_FILES_PATH E = Some static
            /\ static <> []
            /\ file_hash E fs (default_css_filename static) = Ok h
            /\ _default_css_hash (self (fst (_generate_header E fs st)))
               = Some h
            /\ default_hash_computations
                 (reads (fst (_generate_header E fs st)))
               = S (default_hash_computations (reads st)))
  end.
Proof.
  destruct st as [[cls field] res log]. simpl.
  destruct field as [h |].
  - split_header; rewrite ?at_site_app, ?computations_app; simpl;
      rewrite ?app_nil_r, ?Nat.add_0_r;
      (split; [reflexivity || congruence | split; reflexivity]).
  - split_header; rewrite ?computations_app; simpl;
      rewrite ?Nat.add_0_r;
      first [ left; split; [reflexivity | reflexivity]
            | right; do 2 eexists; repeat split; eauto; lia ].
Qed.

End Call.

(** ** Invariants of an instance across calls *)

(** The cache and the count of computed default hashes move together. *)
Lemma history_cache E obj log :
  history E obj log ->
  (_default_css_hash obj = None /\ default_hash_computations log = 0%nat)
  \/ (is_Some (_default_css_hash obj)
      /\ default_hash_computations log = 1%nat).
Proof.
  induction 1 as [cls | obj log fs res Hh IH].
  - left. split; reflexivity.
  - unfold after_call. simpl.
    destruct (preprocess_self E fs tt
                {| self := obj; resources := res; reads := log |})
      as [-> ->].
    pose proof (generate_header_cache E fs
                  (cleared {| self := obj; resources := res; reads := log |}))
      as Hc.
    simpl in Hc. destruct IH as [[Hnone Hzero] | [[h Hsome] Hone]].
    + rewrite Hnone in Hc.
      destruct Hc as [[-> ->] | (static & h & _ & _ & _ & -> & ->)].
      * left. split; [reflexivity | exact Hzero].
      * right. split; [by eexists | by rewrite Hzero].
    + rewrite Hsome in Hc. destruct Hc as (-> & _ & ->).
      right. split; [by eexists | exact Hone].
Qed.

Lemma history_without_default E obj log :
  truthy (DEFAULT_STATIC_FILES_PATH E) = false ->
  history E obj log ->
  _default_css_hash obj = None.
Proof.
  intros HD. induction 1 as [cls | obj log fs res Hh IH]; [reflexivity |].
  unfold after_call. simpl.
  destruct (preprocess_self E fs tt
              {| self := obj; resources := res; reads := log |}) as [-> _].
  pose proof (generate_header_cache E fs
                (cleared {| self := obj; resources := res; reads := log |}))
    as Hc.
  simpl in Hc. rewrite IH in Hc.
  destruct Hc as [[-> _] | (static & h & Hs & Hne & _)]; [reflexivity |].
  rewrite Hs in HD. destruct static; [done | discriminate].
Qed.

(** Without a default location and with nothing cached, a custom file
    that is there is never left out: its text is appended or one of its
    two reads fails. *)
Lemma generate_header_without_default_outcome E fs st c base :
  truthy (DEFAULT_STATIC_FILES_PATH E) = false ->
  _default_css_hash (self st) = None ->
  resources st !! str "config_dir" = Some (VStr c) ->
  os_path_isfile fs (custom_css_filename c) = true ->
  file_text utf8_decode fs (sheet_filename E) = Ok base ->
  (_generate_header E fs st).2
  = match file_hash E fs (custom_css_filename c) with
    | Ok _ =>
        match file_text utf8_decode fs (custom_css_filename c) with
        | Ok custom =>
            Ok [base; get_style_defs E (highlight_class (self st)); custom]
        | Raise e => Raise e
        end
    | Raise e => Raise e
    end
  /\ _default_css_hash (self (_generate_header E fs st).1) = None
  /\ List.filter (at_site default_hash_read)
       (reads (_generate_header E fs st).1)
     = List.filter (at_site default_hash_read) (reads st).
Proof.
  intros HD Hnone Hc Hf Hb.
  destruct st as [[cls field] res log]. simpl in *. subst field.
  unfold custom_css_filename in *.
  unfold _generate_header, io_open_read, bind, get_self, getitem, join_value,
    set_default_css_hash, ret, raise.
  rewrite read_text_run, Hb. simpl. rewrite Hc. simpl. rewrite Hf.
  destruct (DEFAULT_STATIC_FILES_PATH E) as [[| x static] |];
    try discriminate; simpl; rewrite _hash_run;
    (destruct (file_hash E fs (os_path_join c _)) as [h | e]; simpl;
     [| rewrite !at_site_app; simpl; by rewrite !app_nil_r]);
    rewrite ?read_text_run; simpl;
    destruct (file_text utf8_decode fs (os_path_join c _)); simpl;
    rewrite !at_site_app; simpl; by rewrite !app_nil_r.
Qed.

(** ** Properties of [preprocess] *)

(** C1, as stated, fails twice.  A custom file that differs from the
    default in its bytes, but only in the line ending, is left out by a
    new instance: both files read as the same text.  And an instance that
    cached the hash of an earlier default includes a custom file whose
    bytes are those of the default as it is now. *)
Lemma change_detection_counterexample :
  (disk lf_css crlf_css !! custom_path <> disk lf_css crlf_css !! default_path
   /\ inlining_css
        (resources (fst (preprocess utf8_env (disk lf_css crlf_css) tt
                           (start fresh jupyter_resources))))
      = Some (css_blocks [str "body{color:red}";
                          get_style_defs utf8_env default_highlight_class]))
  /\ (let used :=
        self (fst (preprocess utf8_env
                     (disk (ascii_bytes "X{}") (ascii_bytes "X{}")) tt
                     (start fresh jupyter_resources))) in
      let now := disk (ascii_bytes "Y{}") (ascii_bytes "Y{}") in
      now !! custom_path = now !! default_path
      /\ inlining_css
           (resources (fst (preprocess utf8_env now tt
                              (start used jupyter_resources))))
         = Some (css_blocks [str "body{color:red}";
                             get_style_defs utf8_env default_highlight_class;
                             str "Y{}"])).
Proof.
  split; [split; [vm_compute; discriminate | vm_compute; reflexivity] |].
  split; vm_compute; reflexivity.
Qed.

(** C1, amended. With a default location available, a custom file present
    and all reads succeeding, the custom text is appended exactly when the
    hash [_hash] computes for the custom file differs from the cached
    default hash: the digest already stored in the instance or, when none
    is stored, the hash of the default file as it is now, which the call
    stores.  In particular an instance with nothing cached leaves out a
    custom file that holds the same bytes as the default. *)
Theorem change_detection {NB} E fs (nb : NB) st static c base cached hc custom :
  DEFAULT_STATIC_FILES_PATH E = Some static ->
  static <> [] ->
  resources st !! str "config_dir" = Some (VStr c) ->
  os_path_isfile fs (custom_css_filename c) = true ->
  file_text utf8_decode fs (sheet_filename E) = Ok base ->
  match _default_css_hash (self st) with
  | Some h => cached = h
  | None => file_hash E fs (default_css_filename static) = Ok cached
  end ->
  file_hash E fs (custom_css_filename c) = Ok hc ->
  file_text utf8_decode fs (custom_css_filename c) = Ok custom ->
  exists st',
    preprocess E fs nb st = (st', Ok (nb, resources st'))
    /\ _default_css_hash (self st') = Some cached
    /\ inlining_css (resources st')
       = Some (css_blocks
                 ([base; get_style_defs E (highlight_class (self st))]
                  ++ if decide (hc = cached) then [] else [custom]))
    /\ (_default_css_hash (self st) = None ->
        fs !! custom_css_filename c = fs !! default_css_filename static ->
        inlining_css (resources st')
        = Some (css_blocks
                  [base; get_style_defs E (highlight_class (self st))])).
Proof.
  intros HD Hs Hc Hf Hb Hcached Hh Ht. rewrite preprocess_run.
  destruct (generate_header_with_custom E fs (cleared st) static c base
              cached hc custom) as (st1 & -> & Hfield); try done.
  { by rewrite cleared_config_dir. }
  match goal with
  | |- context [stored ?n ?s ?r] => exists (fst (stored n s r))
  end.
  split; [reflexivity |]. split; [exact Hfield |]. simpl.
  rewrite inlining_css_insert, lookup_singleton_eq.
  split; [reflexivity |]. intros Hnone Hsame.
  rewrite Hnone in Hcached. cbv beta iota in Hcached.
  assert (hc = cached) as ->.
  { unfold file_hash, file_text in Hh, Hcached. rewrite Hsame in Hh.
    destruct (fs !! default_css_filename static) as [[[] content |] |];
      try discriminate.
    destruct (locale_decode E content); congruence. }
  by rewrite decide_True.
Qed.

Lemma change_detection_witness :
  let fs := disk (ascii_bytes "X{}") (ascii_bytes "X{color:blue}") in
  let st := start fresh jupyter_resources in
  (DEFAULT_STATIC_FILES_PATH utf8_env = Some (str "/pkg/notebook/static")
   /\ str "/pkg/notebook/static" <> []
   /\ resources st !! str "config_dir" = Some (VStr (str "/home/u/.jupyter"))
   /\ os_path_isfile fs (custom_css_filename (str "/home/u/.jupyter")) = true
   /\ file_text utf8_decode fs (sheet_filename utf8_env)
      = Ok (str "body{color:red}")
   /\ file_hash utf8_env fs (default_css_filename (str "/pkg/notebook/static"))
      = Ok (MD5.digest (ascii_bytes "X{}"))
   /\ file_hash utf8_env fs (custom_css_filename (str "/home/u/.jupyter"))
      = Ok (MD5.digest (ascii_bytes "X{color:blue}"))
   /\ file_text utf8_decode fs (custom_css_filename (str "/home/u/.jupyter"))
      = Ok (str "X{color:blue}"))
  /\ exists st',
       preprocess utf8_env fs tt st = (st', Ok (tt, resources st'))
       /\ _default_css_hash (self st') = Some (MD5.digest (ascii_bytes "X{}"))
       /\ inlining_css (resources st')
          = Some (css_blocks [str "body{color:red}";
                              get_style_defs utf8_env default_highlight_class;
                              str "X{color:blue}"]).
Proof.
  intros fs st.
  assert (H1 : DEFAULT_STATIC_FILES_PATH utf8_env
               = Some (str "/pkg/notebook/static")) by reflexivity.
  assert (H2 : str "/pkg/notebook/static" <> []) by discriminate.
  assert (H3 : resources st !! str "config_dir"
               = Some (VStr (str "/home/u/.jupyter")))
    by (vm_compute; reflexivity).
  assert (H4 : os_path_isfile fs (custom_css_filename (str "/home/u/.jupyter"))
               = true) by (vm_compute; reflexivity).
  assert (H5 : file_text utf8_decode fs (sheet_filename utf8_env)
               = Ok (str "body{color:red}")) by (vm_compute; reflexivity).
  assert (H6 : file_hash utf8_env fs
                 (default_css_filename (str "/pkg/notebook/static"))
               = Ok (MD5.digest (ascii_bytes "X{}")))
    by (vm_compute; reflexivity).
  assert (H7 : file_hash utf8_env fs
                 (custom_css_filename (str "/home/u/.jupyter"))
               = Ok (MD5.digest (ascii_bytes "X{color:blue}")))
    by (vm_compute; reflexivity).
  assert (H8 : file_text utf8_decode fs
                 (custom_css_filename (str "/home/u/.jupyter"))
               = Ok (str "X{color:blue}")) by (vm_compute; reflexivity).
  split; [repeat split; assumption |].
  destruct (change_detection utf8_env fs tt st _ _ _ _ _ _ H1 H2 H3 H4 H5 H6 H7 H8)
    as (st' & Hrun & Hfield & Hcss & _).
  exists st'. split; [exact Hrun |]. split; [exact Hfield |].
  rewrite Hcss. vm_compute. reflexivity.
Defined.

(** C2, as stated, fails: [_hash] opens the file in text mode, so the
    digest is taken over the decoded text with its line endings
    translated.  A file ending in CR LF and one ending in LF get the same
    hash, which is not the MD5 of the bytes of the first. *)
Lemma line_endings_counterexample :
  let fs := disk lf_css crlf_css in
  let st := start fresh jupyter_resources in
  fs !! default_path = Some (File true lf_css)
  /\ fs !! custom_path = Some (File true crlf_css)
  /\ lf_css <> crlf_css
  /\ snd (_hash utf8_env fs custom_hash_read custom_path st)
     = snd (_hash utf8_env fs default_hash_read default_path st)
  /\ snd (_hash utf8_env fs custom_hash_read custom_path st)
     <> Ok (MD5.digest crlf_css).
Proof.
  repeat split; try (vm_compute; reflexivity); vm_compute; discriminate.
Qed.

(** C2, amended. The hash of a file is the 16-byte MD5 digest of its
    text as the builtin [open] reads it: the bytes decoded with the locale
    codec, line endings translated to LF, and the text encoded again by
    [str_to_bytes].  Two files whose texts differ only in line-ending
    style therefore hash the same; a file that cannot be opened or
    decoded raises. *)
Theorem hash_of_text_mode_content E fs site filename st :
  snd (_hash E fs site filename st)
  = match fs !! filename with
    | Some (File true content) =>
        match locale_decode E content with
        | Some text =>
            Ok (MD5.digest (str_to_bytes E (universal_newlines text)))
        | None => Raise UnicodeDecodeError
        end
    | _ => Raise (OSError filename)
    end
  /\ (forall h, snd (_hash E fs site filename st) = Ok h ->
                length h = 16%nat)
  /\ (forall site' other content content' text text',
        fs !! filename = Some (File true content) ->
        fs !! other = Some (File true content') ->
        locale_decode E content = Some text ->
        locale_decode E content' = Some text' ->
        universal_newlines text = universal_newlines text' ->
        snd (_hash E fs site filename st) = snd (_hash E fs site' other st)).
Proof.
  rewrite _hash_run. simpl. unfold file_hash, file_text.
  split; [| split].
  - destruct (fs !! filename) as [[[] content |] |]; try reflexivity.
    destruct (locale_decode E content); reflexivity.
  - intros h Hh.
    destruct (fs !! filename) as [[[] content |] |]; try discriminate.
    destruct (locale_decode E content); [| discriminate].
    injection Hh as <-. apply digest_length.
  - intros site' other content content' text text' H1 H2 H3 H4 Heq.
    rewrite _hash_run. simpl. unfold file_hash, file_text.
    rewrite H1, H2, H3, H4, Heq. reflexivity.
Qed.

Lemma hash_of_text_mode_content_witness :
  let fs := disk lf_css crlf_css in
  let st := start fresh jupyter_resources in
  length (MD5.digest (utf8_encode_replace (str "X{}" ++ [10]))) = 16%nat
  /\ snd (_hash utf8_env fs custom_hash_read custom_path st)
     = snd (_hash utf8_env fs default_hash_read default_path st).
Proof.
  intros fs st.
  destruct (hash_of_text_mode_content utf8_env fs custom_hash_read custom_path st)
    as (Hval & Hlen & Hsame).
  split.
  - apply Hlen. rewrite Hval. vm_compute. reflexivity.
  - apply (Hsame default_hash_read default_path crlf_css lf_css
             (str "X{}" ++ [13; 10]) (str "X{}" ++ [10]));
      vm_compute; reflexivity.
Defined.

(** C3, as stated, fails: an entry that was under [resources['inlining']]
    before the call, here [js], is gone after it, because line 41 rebinds
    [resources['inlining']] to a new empty dictionary. *)
Lemma inlining_frame_counterexample :
  inlining_item resources_with_js (str "js")
    = Some (VList [VStr (str "alert(1)")])
  /\ inlining_item
       (resources (fst (preprocess utf8_env disk_without_custom tt
                          (start fresh resources_with_js))))
       (str "js") = None
  /\ completed (snd (preprocess utf8_env disk_without_custom tt
                       (start fresh resources_with_js))) = true.
Proof. repeat split; vm_compute; reflexivity. Qed.

(** C3, amended. [preprocess] changes [resources] only at the key
    [inlining], and there it replaces the whole entry: after a normal
    return [resources['inlining']] is a dictionary whose only key is
    [css]; after a failure it is the empty dictionary.  Nothing that was
    under [resources['inlining']] before survives.  The notebook and the
    dictionary are returned as they are. *)
Theorem preprocess_frame {NB} E fs (nb : NB) st k :
  k <> str "inlining" ->
  resources (fst (preprocess E fs nb st)) !! k = resources st !! k
  /\ exists d,
       resources (fst (preprocess E fs nb st))
         = <[str "inlining" := VDict d]> (resources st)
       /\ match snd (preprocess E fs nb st) with
          | Ok (nb', res') =>
              nb' = nb
              /\ res' = resources (fst (preprocess E fs nb st))
              /\ exists header, d = {[str "css" := css_blocks header]}
          | Raise _ => d = ∅
          end.
Proof.
  intros Hk. rewrite preprocess_run.
  destruct (generate_header_frame E fs (cleared st)) as (Hres & _ & _).
  destruct (_generate_header E fs (cleared st)) as [st1 [header | e]];
    simpl in *.
  - split; [by rewrite lookup_insert_ne |].
    eexists. split; [reflexivity |]. eauto.
  - rewrite Hres. split; [by rewrite lookup_insert_ne |].
    eexists. split; reflexivity.
Qed.

Lemma preprocess_frame_witness :
  str "config_dir" <> str "inlining"
  /\ resources (fst (preprocess utf8_env disk_without_custom tt
                       (start fresh resources_with_js))) !! str "config_dir"
     = Some (VStr (str "/home/u/.jupyter")).
Proof.
  assert (H : str "config_dir" <> str "inlining") by discriminate.
  split; [exact H |].
  destruct (preprocess_frame utf8_env disk_without_custom tt
              (start fresh resources_with_js) (str "config_dir") H) as [Hk _].
  rewrite Hk. reflexivity.
Defined.

(** C4. After a normal return the stored sequence starts with the text of
    the base style sheet, then the highlighting CSS; it ends there when
    the custom style sheet is not included, and has the custom text as
    third and last block exactly when it is included. *)
Theorem blocks_in_order {NB} E fs (nb : NB) st st' nb' res' :
  preprocess E fs nb st = (st', Ok (nb', res')) ->
  exists base c header,
    file_text utf8_decode fs (sheet_filename E) = Ok base
    /\ resources st !! str "config_dir" = Some (VStr c)
    /\ inlining_css res' = Some (css_blocks header)
    /\ header !! 0%nat = Some base
    /\ header !! 1%nat = Some (get_style_defs E (highlight_class (self st)))
    /\ ((~ custom_included E fs (self st') c /\ length header = 2%nat)
        \/ (custom_included E fs (self st') c
            /\ exists custom,
                 file_text utf8_decode fs (custom_css_filename c) = Ok custom
                 /\ header = [base;
                              get_style_defs E (highlight_class (self st));
                              custom])).
Proof.
  rewrite preprocess_run.
  destruct (_generate_header E fs (cleared st)) as [st1 [header | e]] eqn:Hg;
    [| discriminate].
  intros [= <- <- <-].
  apply generate_header_ok in Hg as (base & c & Hb & Hc & Hcase).
  rewrite cleared_config_dir in Hc.
  exists base, c, header. split; [exact Hb |]. split; [exact Hc |].
  split; [by rewrite inlining_css_insert, lookup_singleton_eq |].
  unfold custom_included. simpl.
  destruct Hcase as [[-> [Hf | (h & Hh & Heq)]]
                    | (h & custom & Hf & Hh & Hne & Ht & ->)].
  - do 2 (split; [reflexivity |]). left. split; [| reflexivity].
    intros [Hf' _]. congruence.
  - do 2 (split; [reflexivity |]). left. split; [| reflexivity].
    intros (_ & h' & Hh' & Hne). congruence.
  - do 2 (split; [reflexivity |]). right. eauto 10.
Qed.

Lemma blocks_in_order_witness :
  exists st' res',
    preprocess utf8_env (disk (ascii_bytes "X{}") (ascii_bytes "X{color:blue}"))
      tt (start fresh jupyter_resources) = (st', Ok (tt, res'))
    /\ exists base c header,
         file_text utf8_decode
           (disk (ascii_bytes "X{}") (ascii_bytes "X{color:blue}"))
           (sheet_filename utf8_env) = Ok base
         /\ jupyter_resources !! str "config_dir" = Some (VStr c)
         /\ inlining_css res' = Some (css_blocks header)
         /\ header !! 0%nat = Some base
         /\ header !! 1%nat
            = Some (get_style_defs utf8_env default_highlight_class).
Proof.
  set (fs := disk (ascii_bytes "X{}") (ascii_bytes "X{color:blue}")).
  set (r := preprocess utf8_env fs tt (start fresh jupyter_resources)).
  assert (H : r = (fst r, Ok (tt, resources (fst r))))
    by (vm_compute; reflexivity).
  exists (fst r), (resources (fst r)). split; [exact H |].
  destruct (blocks_in_order utf8_env fs tt (start fresh jupyter_resources)
              _ _ _ H) as (base & c & header & H1 & H2 & H3 & H4 & H5 & _).
  exists base, c, header. auto.
Defined.

(** C5, as stated, fails: the hash of the default is computed when first
    needed, so an instance whose calls never find a custom file computes
    it zero times, not once. *)
Lemma memoisation_counterexample :
  let twice :=
    after_call utf8_env disk_without_custom jupyter_resources
      (after_call utf8_env disk_without_custom jupyter_resources (fresh, [])) in
  history utf8_env twice.1 twice.2
  /\ default_hash_computations twice.2 = 0%nat
  /\ _default_css_hash twice.1 = None.
Proof.
  split; [do 2 apply history_call; apply history_init |].
  split; vm_compute; reflexivity.
Qed.

(** C5, amended. Over the whole life of an instance the hash of the
    default style sheet is computed at most once, and exactly once iff
    the cached field is set.  Once the field is set, a further call
    neither changes it nor opens the default style sheet again.  While it
    is not set, the first call that finds a custom file, with a default
    location available and a readable default, computes and stores it. *)
Theorem default_hash_memoised E obj log :
  history E obj log ->
  (default_hash_computations log <= 1)%nat
  /\ (default_hash_computations log = 1%nat
      <-> is_Some (_default_css_hash obj))
  /\ (forall h fs res,
        _default_css_hash obj = Some h ->
        _default_css_hash (after_call E fs res (obj, log)).1 = Some h
        /\ List.filter (at_site default_hash_read)
             (after_call E fs res (obj, log)).2
           = List.filter (at_site default_hash_read) log)
  /\ (forall fs res static c base hd,
        _default_css_hash obj = None ->
        DEFAULT_STATIC_FILES_PATH E = Some static ->
        static <> [] ->
        res !! str "config_dir" = Some (VStr c) ->
        os_path_isfile fs (custom_css_filename c) = true ->
        file_text utf8_decode fs (sheet_filename E) = Ok base ->
        file_hash E fs (default_css_filename static) = Ok hd ->
        _default_css_hash (after_call E fs res (obj, log)).1 = Some hd
        /\ default_hash_computations (after_call E fs res (obj, log)).2
           = 1%nat).
Proof.
  intros Hh. split; [| split; [| split]].
  - destruct (history_cache E obj log Hh) as [[_ ->] | [_ ->]]; lia.
  - destruct (history_cache E obj log Hh) as [[Hn Hz] | [Hs Ho]].
    + rewrite Hn, Hz. split; [discriminate | by intros [? ?]].
    + split; [done | by intros _].
  - intros h fs res Hsome. unfold after_call. simpl.
    destruct (preprocess_self E fs tt
                {| self := obj; resources := res; reads := log |})
      as [-> ->].
    pose proof (generate_header_cache E fs
                  (cleared {| self := obj; resources := res; reads := log |}))
      as Hc.
    simpl in Hc. rewrite Hsome in Hc. destruct Hc as (Hf & Hr & _).
    split; assumption.
  - intros fs res static c base hd Hnone HD Hs Hc Hf Hb Hd.
    assert (Hfield : _default_css_hash (after_call E fs res (obj, log)).1
                     = Some hd).
    { unfold after_call. simpl.
      destruct (preprocess_self E fs tt
                  {| self := obj; resources := res; reads := log |})
        as [-> _].
      pose proof (generate_header_default_first E fs
                    (cleared {| self := obj; resources := res; reads := log |})
                    static c base HD Hs Hnone) as H.
      rewrite cleared_config_dir, Hd in H. by apply H. }
    split; [exact Hfield |].
    destruct (history_cache E _ _ (history_call E obj log fs res Hh))
      as [[Hn _] | [_ Hone]]; [congruence | exact Hone].
Qed.

Lemma default_hash_memoised_witness :
  let once :=
    after_call utf8_env (disk (ascii_bytes "X{}") (ascii_bytes "X{}"))
      jupyter_resources (fresh, []) in
  history utf8_env once.1 once.2
  /\ default_hash_computations once.2 = 1%nat
  /\ _default_css_hash
       (after_call utf8_env (disk (ascii_bytes "Y{}") (ascii_bytes "Y{}"))
          jupyter_resources (once.1, once.2)).1
     = Some (MD5.digest (ascii_bytes "X{}")).
Proof.
  intros once.
  assert (Hh : history utf8_env once.1 once.2)
    by (apply history_call, history_init).
  split; [exact Hh |].
  destruct (default_hash_memoised utf8_env once.1 once.2 Hh)
    as (_ & Hone & Hkeep & _).
  split.
  - apply Hone. vm_compute. eexists. reflexivity.
  - apply Hkeep. vm_compute. reflexivity.
Defined.

(** C6, as stated, fails: the content of the custom file does matter.
    Line 82 hashes the file in text mode even when there is no default to
    compare with, so in a process whose locale codec is ASCII a custom
    style sheet in valid UTF-8 with one accented letter makes the call
    raise; nothing is included. *)
Lemma no_baseline_counterexample :
  let fs := disk (ascii_bytes "X{}") accent_css in
  let st := start fresh jupyter_resources in
  truthy (DEFAULT_STATIC_FILES_PATH ascii_locale_env) = false
  /\ os_path_isfile fs custom_path = true
  /\ is_Some (utf8_decode accent_css)
  /\ (preprocess ascii_locale_env fs tt st).2 = Raise UnicodeDecodeError
  /\ inlining_css (resources (preprocess ascii_locale_env fs tt st).1) = None.
Proof.
  intros fs st. split; [reflexivity |]. split; [vm_compute; reflexivity |].
  split; [vm_compute; eexists; reflexivity |].
  split; vm_compute; reflexivity.
Qed.

(** C6, amended. Where no default location is available, every call of
    an instance that finds the custom file treats it as modified,
    whatever the file holds: the call never returns without it.  When the
    file can be read, in text mode for its hash and as UTF-8 for its
    text, the text is the third and last block; when one of these reads
    fails, the call fails with the error of that read.  Nothing is
    cached. *)
Theorem no_baseline_always_included {NB} E fs (nb : NB) st log0 c base :
  truthy (DEFAULT_STATIC_FILES_PATH E) = false ->
  history E (self st) log0 ->
  resources st !! str "config_dir" = Some (VStr c) ->
  os_path_isfile fs (custom_css_filename c) = true ->
  file_text utf8_decode fs (sheet_filename E) = Ok base ->
  css_outcome (preprocess E fs nb st)
  = match file_hash E fs (custom_css_filename c) with
    | Ok _ =>
        match file_text utf8_decode fs (custom_css_filename c) with
        | Ok custom =>
            Ok (Some (css_blocks
                        [base; get_style_defs E (highlight_class (self st));
                         custom]))
        | Raise e => Raise e
        end
    | Raise e => Raise e
    end
  /\ _default_css_hash (self (preprocess E fs nb st).1) = None
  /\ List.filter (at_site default_hash_read) (reads (preprocess E fs nb st).1)
     = List.filter (at_site default_hash_read) (reads st).
Proof.
  intros HD Hh Hc Hf Hb.
  pose proof (history_without_default E _ _ HD Hh) as Hnone.
  destruct (generate_header_without_default_outcome E fs (cleared st) c base)
    as (Hr & Hfield & Hsites); try done.
  { by rewrite cleared_config_dir. }
  destruct (preprocess_self E fs nb st) as [Hs Hreads].
  rewrite Hs, Hreads. split; [| split; [exact Hfield | exact Hsites]].
  unfold css_outcome. rewrite preprocess_run.
  destruct (_generate_header E fs (cleared st)) as [st1 [header | e]];
    simpl in Hr |- *.
  - rewrite inlining_css_insert, lookup_singleton_eq.
    destruct (file_hash E fs (custom_css_filename c)); [| discriminate].
    destruct (file_text utf8_decode fs (custom_css_filename c));
      [| discriminate].
    by injection Hr as ->.
  - destruct (file_hash E fs (custom_css_filename c));
      [| by injection Hr as ->].
    destruct (file_text utf8_decode fs (custom_css_filename c));
      [discriminate | by injection Hr as ->].
Qed.

Lemma no_baseline_always_included_witness :
  let fs := disk (ascii_bytes "X{}") (ascii_bytes "X{}") in
  let st := start fresh jupyter_resources in
  (truthy (DEFAULT_STATIC_FILES_PATH no_notebook_env) = false
   /\ history no_notebook_env (self st) []
   /\ fs !! custom_path = fs !! default_path)
  /\ css_outcome (preprocess no_notebook_env fs tt st)
     = Ok (Some (css_blocks [str "body{color:red}";
                             get_style_defs utf8_env default_highlight_class;
                             str "X{}"])).
Proof.
  intros fs st.
  assert (H1 : truthy (DEFAULT_STATIC_FILES_PATH no_notebook_env) = false)
    by reflexivity.
  assert (H2 : history no_notebook_env (self st) []) by apply history_init.
  assert (H3 : resources st !! str "config_dir"
               = Some (VStr (str "/home/u/.jupyter")))
    by (vm_compute; reflexivity).
  assert (H4 : os_path_isfile fs (custom_css_filename (str "/home/u/.jupyter"))
               = true) by (vm_compute; reflexivity).
  assert (H5 : file_text utf8_decode fs (sheet_filename no_notebook_env)
               = Ok (str "body{color:red}")) by (vm_compute; reflexivity).
  split; [repeat split; try assumption; vm_compute; reflexivity |].
  destruct (no_baseline_always_included no_notebook_env fs tt st [] _ _
              H1 H2 H3 H4 H5) as (Hout & _).
  rewrite Hout. vm_compute. reflexivity.
Defined.

(** C7. When [<config_dir>/custom/custom.css] is not a file, and the base
    style sheet is readable, [preprocess] returns normally and stores
    exactly two blocks: the base style sheet, then the highlighting CSS.
    Only the base style sheet is opened. *)
Theorem missing_custom_two_blocks {NB} E fs (nb : NB) st c base :
  resources st !! str "config_dir" = Some (VStr c) ->
  os_path_isfile fs (custom_css_filename c) = false ->
  file_text utf8_decode fs (sheet_filename E) = Ok base ->
  exists st' header,
    preprocess E fs nb st = (st', Ok (nb, resources st'))
    /\ inlining_css (resources st') = Some (css_blocks header)
    /\ header = [base; get_style_defs E (highlight_class (self st))]
    /\ length header = 2%nat
    /\ self st' = self st
    /\ reads st' = reads st ++ [(sheet_read, sheet_filename E, true)].
Proof.
  intros Hc Hf Hb. rewrite preprocess_run.
  rewrite (generate_header_without_custom E fs (cleared st) c base);
    [| by rewrite cleared_config_dir | done | done].
  match goal with
  | |- context [stored ?n ?s ?r] => exists (fst (stored n s r))
  end.
  eexists. split; [reflexivity |]. simpl.
  rewrite inlining_css_insert, lookup_singleton_eq. done.
Qed.

Lemma missing_custom_two_blocks_witness :
  resources (start fresh jupyter_resources) !! str "config_dir"
    = Some (VStr (str "/home/u/.jupyter"))
  /\ os_path_isfile disk_without_custom
       (custom_css_filename (str "/home/u/.jupyter")) = false
  /\ file_text utf8_decode disk_without_custom (sheet_filename utf8_env)
       = Ok (str "body{color:red}")
  /\ exists st' header,
       preprocess utf8_env disk_without_custom tt (start fresh jupyter_resources)
         = (st', Ok (tt, resources st'))
       /\ inlining_css (resources st') = Some (css_blocks header)
       /\ header = [str "body{color:red}";
                    get_style_defs utf8_env
                      (highlight_class (self (start fresh jupyter_resources)))]
       /\ length header = 2%nat
       /\ self st' = self (start fresh jupyter_resources)
       /\ reads st' = reads (start fresh jupyter_resources)
                       ++ [(sheet_read, sheet_filename utf8_env, true)].
Proof.
  assert (H1 : resources (start fresh jupyter_resources) !! str "config_dir"
               = Some (VStr (str "/home/u/.jupyter")))
    by (vm_compute; reflexivity).
  assert (H2 : os_path_isfile disk_without_custom
                 (custom_css_filename (str "/home/u/.jupyter")) = false)
    by (vm_compute; reflexivity).
  assert (H3 : file_text utf8_decode disk_without_custom (sheet_filename utf8_env)
               = Ok (str "body{color:red}"))
    by (vm_compute; reflexivity).
  repeat split; try assumption.
  exact (missing_custom_two_blocks utf8_env disk_without_custom tt
           (start fresh jupyter_resources) _ _ H1 H2 H3).
Defined.

(** C8. When [resources] has no [config_dir], and the base style sheet
    is readable, the call fails with the [KeyError] of the lookup of line
    77, which nothing catches: no blocks are stored
    ([resources['inlining']] is left as the empty dictionary), the
    instance is unchanged and no file but the base style sheet has been
    opened. *)
Theorem missing_config_dir_fails {NB} E fs (nb : NB) st base :
  resources st !! str "config_dir" = None ->
  file_text utf8_decode fs (sheet_filename E) = Ok base ->
  exists st',
    preprocess E fs nb st = (st', Raise (KeyError (str "config_dir")))
    /\ resources st' = <[str "inlining" := VDict ∅]> (resources st)
    /\ inlining_css (resources st') = None
    /\ self st' = self st
    /\ reads st' = reads st ++ [(sheet_read, sheet_filename E, true)].
Proof.
  intros Hc Hb. rewrite preprocess_run.
  rewrite (generate_header_without_config_dir E fs (cleared st));
    [| by rewrite cleared_config_dir].
  rewrite Hb. simpl. eexists. split; [reflexivity |]. simpl.
  rewrite inlining_css_insert, lookup_empty. done.
Qed.

Lemma missing_config_dir_fails_witness :
  resources (start fresh ∅) !! str "config_dir" = None
  /\ file_text utf8_decode disk_without_custom (sheet_filename utf8_env)
     = Ok (str "body{color:red}")
  /\ exists st',
       preprocess utf8_env disk_without_custom tt (start fresh ∅)
         = (st', Raise (KeyError (str "config_dir")))
       /\ inlining_css (resources st') = None.
Proof.
  assert (H : resources (start fresh ∅) !! str "config_dir" = None)
    by reflexivity.
  assert (Hb : file_text utf8_decode disk_without_custom
                 (sheet_filename utf8_env) = Ok (str "body{color:red}"))
    by (vm_compute; reflexivity).
  split; [exact H |]. split; [exact Hb |].
  destruct (missing_config_dir_fails utf8_env disk_without_custom tt
              (start fresh ∅) _ H Hb)
    as (st' & Hrun & _ & Hcss & _).
  exists st'. split; [exact Hrun | exact Hcss].
Defined.

(** C9, as stated, fails: a first call on an instance whose custom style
    sheet differs from the default performs four reads. *)
Lemma three_reads_counterexample :
  reads (fst (preprocess utf8_env
                (disk (ascii_bytes "X{}") (ascii_bytes "X{color:blue}"))
                tt (start fresh jupyter_resources)))
  = [(sheet_read, sheet_path, true); (default_hash_read, default_path, true);
     (custom_hash_read, custom_path, true); (custom_read, custom_path, true)]
  /\ (3 < length (reads (fst (preprocess utf8_env
                (disk (ascii_bytes "X{}") (ascii_bytes "X{color:blue}"))
                tt (start fresh jupyter_resources)))))%nat.
Proof. split; vm_compute; [reflexivity | lia]. Qed.

(** C9, amended. Every call opens at most four files: the base style
    sheet, the default for its hash, the custom file for its hash and the
    custom file for its text. *)
Theorem preprocess_reads_at_most_four {NB} E fs (nb : NB) st :
  exists new,
    reads (fst (preprocess E fs nb st)) = reads st ++ new
    /\ (length new <= 4)%nat.
Proof.
  rewrite preprocess_run.
  destruct (generate_header_frame E fs (cleared st)) as (_ & _ & new & Hn & Hl).
  exists new. split; [| exact Hl].
  destruct (_generate_header E fs (cleared st)) as [st1 [header | e]];
    exact Hn.
Qed.

(** C10. With a default location available, a custom file present and
    nothing cached, the default style sheet is opened for hashing as soon
    as the base style sheet has been read, without a check that it
    exists.  When it can be read its hash is stored.  When it cannot, the
    call fails with the error of that read: no blocks are stored, the
    custom file is not opened and nothing is cached. *)
Theorem default_hash_unconditional {NB} E fs (nb : NB) st static c :
  DEFAULT_STATIC_FILES_PATH E = Some static ->
  static <> [] ->
  _default_css_hash (self st) = None ->
  resources st !! str "config_dir" = Some (VStr c) ->
  os_path_isfile fs (custom_css_filename c) = true ->
  (forall base,
     file_text utf8_decode fs (sheet_filename E) = Ok base ->
     exists rest,
       reads (fst (preprocess E fs nb st)) = reads st ++
         (sheet_read, sheet_filename E, true)
         :: (default_hash_read, default_css_filename static,
             completed (file_hash E fs (default_css_filename static)))
         :: rest)
  /\ (forall base hd,
        file_text utf8_decode fs (sheet_filename E) = Ok base ->
        file_hash E fs (default_css_filename static) = Ok hd ->
        _default_css_hash (self (fst (preprocess E fs nb st))) = Some hd)
  /\ (forall e,
        file_hash E fs (default_css_filename static) = Raise e ->
        exists e',
          snd (preprocess E fs nb st) = Raise e'
          /\ inlining_css (resources (fst (preprocess E fs nb st))) = None
          /\ _default_css_hash (self (fst (preprocess E fs nb st))) = None
          /\ List.filter (at_site custom_read)
               (reads (fst (preprocess E fs nb st)))
             = List.filter (at_site custom_read) (reads st)
          /\ (forall base,
                file_text utf8_decode fs (sheet_filename E) = Ok base ->
                e' = e)).
Proof.
  intros HD Hs Hnone Hc Hf.
  assert (Hc' : resources (cleared st) !! str "config_dir" = Some (VStr c))
    by (by rewrite cleared_config_dir).
  split; [| split].
  - intros base Hb.
    destruct (preprocess_self E fs nb st) as [_ ->].
    pose proof (generate_header_default_first E fs (cleared st) static c base
                  HD Hs Hnone Hc' Hf Hb) as H.
    destruct (file_hash E fs (default_css_filename static)) as [hd | e].
    + destruct H as [_ [rest Hr]]. exists rest. exact Hr.
    + rewrite H. simpl. exists []. reflexivity.
  - intros base hd Hb Hd.
    destruct (preprocess_self E fs nb st) as [-> _].
    pose proof (generate_header_default_first E fs (cleared st) static c base
                  HD Hs Hnone Hc' Hf Hb) as H.
    rewrite Hd in H. apply H.
  - intros e He. rewrite preprocess_run.
    destruct (file_text utf8_decode fs (sheet_filename E)) as [base | e0] eqn:Hb.
    + pose proof (generate_header_default_first E fs (cleared st) static c base
                    HD Hs Hnone Hc' Hf Hb) as H.
      rewrite He in H. rewrite H. simpl. exists e.
      rewrite inlining_css_insert, lookup_empty, List.filter_app. simpl.
      rewrite app_nil_r. repeat split; done.
    + rewrite (generate_header_without_sheet E fs (cleared st) e0 Hb).
      simpl. exists e0.
      rewrite inlining_css_insert, lookup_empty, at_site_app. simpl.
      rewrite app_nil_r. repeat split; done.
Qed.

Lemma default_hash_unconditional_witness :
  let fs := <[sheet_path := File true (ascii_bytes "body{color:red}")]>
              (<[custom_path := File true (ascii_bytes "X{}")]> ∅) in
  let st := start fresh jupyter_resources in
  (DEFAULT_STATIC_FILES_PATH utf8_env = Some (str "/pkg/notebook/static")
   /\ _default_css_hash (self st) = None
   /\ os_path_isfile fs (custom_css_filename (str "/home/u/.jupyter")) = true
   /\ fs !! default_path = None)
  /\ snd (preprocess utf8_env fs tt st) = Raise (OSError default_path)
  /\ inlining_css (resources (fst (preprocess utf8_env fs tt st))) = None.
Proof.
  intros fs st.
  assert (H1 : DEFAULT_STATIC_FILES_PATH utf8_env
               = Some (str "/pkg/notebook/static")) by reflexivity.
  assert (H2 : str "/pkg/notebook/static" <> []) by discriminate.
  assert (H3 : _default_css_hash (self st) = None) by reflexivity.
  assert (H4 : resources st !! str "config_dir"
               = Some (VStr (str "/home/u/.jupyter")))
    by (vm_compute; reflexivity).
  assert (H5 : os_path_isfile fs (custom_css_filename (str "/home/u/.jupyter"))
               = true) by (vm_compute; reflexivity).
  assert (H6 : file_hash utf8_env fs
                 (default_css_filename (str "/pkg/notebook/static"))
               = Raise (OSError default_path)) by (vm_compute; reflexivity).
  assert (H7 : file_text utf8_decode fs (sheet_filename utf8_env)
               = Ok (str "body{color:red}")) by (vm_compute; reflexivity).
  split; [repeat split; try assumption; vm_compute; reflexivity |].
  destruct (default_hash_unconditional utf8_env fs tt st _ _ H1 H2 H3 H4 H5)
    as (_ & _ & Hfail).
  destruct (Hfail _ H6) as (e' & Hr & Hcss & _ & _ & He).
  rewrite Hr, (He _ H7). split; [reflexivity | exact Hcss].
Defined.

(** ** Further properties of the class *)

Section Further.

Context (E : environment) (fs : filesystem).

Ltac run_call :=
  unfold _generate_header, io_open_read, bind, get_self, getitem, join_value,
    set_default_css_hash, ret, raise;
  repeat (rewrite ?read_text_run, ?_hash_run; simpl).

Ltac split_call :=
  run_call;
  repeat (match goal with
          | |- context [match ?x with _ => _ end] =>
              lazymatch x with
              | context [match _ with _ => _ end] => fail
              | _ => destruct x eqn:?
              end
          end; simpl; rewrite ?read_text_run, ?_hash_run; simpl).

(** Of [resources], [_generate_header] looks at [config_dir] only. *)
Lemma generate_header_config_only obj res res2 log log2 :
  res !! str "config_dir" = res2 !! str "config_dir" ->
  (_generate_header E fs {| self := obj; resources := res; reads := log |}).2
  = (_generate_header E fs {| self := obj; resources := res2; reads := log2 |}).2
  /\ self (_generate_header E fs
             {| self := obj; resources := res; reads := log |}).1
     = self (_generate_header E fs
               {| self := obj; resources := res2; reads := log2 |}).1.
Proof.
  intros Hc. run_call. rewrite Hc. split_call; split; reflexivity.
Qed.

(** A cache that holds the hash of the default as it is now gives the
    result that an empty cache gives. *)
Lemma generate_header_warm cls res log log2 static hd :
  DEFAULT_STATIC_FILES_PATH E = Some static ->
  static <> [] ->
  file_hash E fs (default_css_filename static) = Ok hd ->
  (_generate_header E fs
     {| self := {| highlight_class := cls; _default_css_hash := Some hd |};
        resources := res; reads := log2 |}).2
  = (_generate_header E fs
       {| self := {| highlight_class := cls; _default_css_hash := None |};
          resources := res; reads := log |}).2.
Proof.
  intros HD Hs Hd. destruct static as [| x static]; [done |].
  run_call. rewrite HD.
  destruct (file_text utf8_decode fs (sheet_filename E)); simpl; [| done].
  destruct (res !! str "config_dir") as [[| c | |] |]; simpl; try done.
  destruct (os_path_isfile fs _); simpl; [| done].
  rewrite !_hash_run, Hd. simpl. rewrite !_hash_run.
  destruct (file_hash E fs (os_path_join c _)); simpl; [| done].
  case_bool_decide; simpl; rewrite ?read_text_run; simpl; [| done].
  destruct (file_text utf8_decode fs (os_path_join c _)); reflexivity.
Qed.

(** The whole effect of [preprocess] in terms of [_generate_header] run
    after line 41. *)
Lemma preprocess_shape {NB} (nb : NB) st :
  preprocess E fs nb st =
  let g := _generate_header E fs (cleared st) in
  let d := match g.2 with
           | Ok header => {[str "css" := css_blocks header]}
           | Raise _ => ∅
           end in
  ({| self := self g.1;
      resources := <[str "inlining" := VDict d]> (resources st);
      reads := reads g.1 |},
   match g.2 with
   | Ok header =>
       Ok (nb, <[str "inlining" := VDict {[str "css" := css_blocks header]}]>
                 (resources st))
   | Raise e => Raise e
   end).
Proof.
  rewrite preprocess_run.
  destruct (generate_header_frame E fs (cleared st)) as (Hres & _ & _).
  destruct (_generate_header E fs (cleared st)) as [[obj res log] [header | e]];
    simpl in *; [reflexivity |].
  by rewrite Hres.
Qed.

Lemma css_outcome_run {NB} (nb : NB) st :
  css_outcome (preprocess E fs nb st)
  = match (_generate_header E fs (cleared st)).2 with
    | Ok header => Ok (Some (css_blocks header))
    | Raise e => Raise e
    end.
Proof.
  rewrite preprocess_shape. unfold css_outcome. simpl.
  destruct (_generate_header E fs (cleared st)).2; [| reflexivity].
  by rewrite inlining_css_insert, lookup_singleton_eq.
Qed.

Lemma instance_eq (a b : instance) :
  highlight_class a = highlight_class b ->
  _default_css_hash a = _default_css_hash b ->
  a = b.
Proof. destruct a, b. simpl. by intros -> ->. Qed.


(** The files of a call are opened in the order of the source; a read
    that fails ends the call. *)
Lemma generate_header_reads_order st :
  exists new,
    reads (_generate_header E fs st).1 = reads st ++ new
    /\ In (sites new)
         [[sheet_read];
          [sheet_read; custom_hash_read];
          [sheet_read; custom_hash_read; custom_read];
          [sheet_read; default_hash_read];
          [sheet_read; default_hash_read; custom_hash_read];
          [sheet_read; default_hash_read; custom_hash_read; custom_read]]
    /\ Forall (fun ev => ev.2 = true)
         (if completed (_generate_header E fs st).2 then new
          else removelast new).
Proof.
  split_call; rewrite <- ?app_assoc; simpl;
    (eexists; split; [reflexivity |]); simpl;
    (split; [tauto | repeat constructor]).
Qed.

Lemma generate_header_custom_hash_fails st c base e :
  resources st !! str "config_dir" = Some (VStr c) ->
  os_path_isfile fs (custom_css_filename c) = true ->
  file_text utf8_decode fs (sheet_filename E) = Ok base ->
  (forall static,
     DEFAULT_STATIC_FILES_PATH E = Some static -> static <> [] ->
     _default_css_hash (self st) = None ->
     exists hd, file_hash E fs (default_css_filename static) = Ok hd) ->
  file_hash E fs (custom_css_filename c) = Raise e ->
  (_generate_header E fs st).2 = Raise e
  /\ List.filter (at_site custom_read) (reads (_generate_header E fs st).1)
     = List.filter (at_site custom_read) (reads st)
  /\ (forall static hd,
        DEFAULT_STATIC_FILES_PATH E = Some static -> static <> [] ->
        _default_css_hash (self st) = None ->
        file_hash E fs (default_css_filename static) = Ok hd ->
        _default_css_hash (self (_generate_header E fs st).1) = Some hd).
Proof.
  intros Hc Hf Hb Hdef He.
  destruct st as [[cls field] res log]. simpl in *.
  unfold custom_css_filename in *. run_call.
  rewrite Hb. simpl. rewrite Hc. simpl. rewrite Hf.
  destruct (DEFAULT_STATIC_FILES_PATH E) as [[| x static] |] eqn:HD;
    [| destruct field as [h |] |]; simpl.
  - rewrite _hash_run, He. simpl. rewrite !at_site_app. simpl.
    rewrite !app_nil_r. repeat split; try done. intros ? ? [= <-]. done.
  - rewrite _hash_run, He. simpl. rewrite !at_site_app. simpl.
    rewrite !app_nil_r. repeat split; done.
  - destruct (Hdef _ eq_refl ltac:(done) eq_refl) as [hd Hd].
    rewrite _hash_run, Hd. simpl. rewrite _hash_run, He. simpl.
    rewrite !at_site_app. simpl. rewrite !app_nil_r.
    repeat split; try done. intros ? hd' [= <-] _ _ Hd'. congruence.
  - rewrite _hash_run, He. simpl. rewrite !at_site_app. simpl.
    rewrite !app_nil_r. repeat split; done.
Qed.

Lemma generate_header_custom_text_fails st static c base cached hc e :
  DEFAULT_STATIC_FILES_PATH E = Some static ->
  static <> [] ->
  resources st !! str "config_dir" = Some (VStr c) ->
  os_path_isfile fs (custom_css_filename c) = true ->
  file_text utf8_decode fs (sheet_filename E) = Ok base ->
  match _default_css_hash (self st) with
  | Some h => cached = h
  | None => file_hash E fs (default_css_filename static) = Ok cached
  end ->
  file_hash E fs (custom_css_filename c) = Ok hc ->
  hc <> cached ->
  file_text utf8_decode fs (custom_css_filename c) = Raise e ->
  (_generate_header E fs st).2 = Raise e
  /\ _default_css_hash (self (_generate_header E fs st).1) = Some cached.
Proof.
  intros HD Hs Hc Hf Hb Hcached Hh Hne Ht. destruct static as [| x static];
    [done |].
  destruct st as [[cls field] res log]. simpl in *.
  unfold custom_css_filename in *. run_call.
  rewrite Hb. simpl. rewrite Hc. simpl. rewrite Hf, HD.
  destruct field as [h |]; simpl.
  - subst h. rewrite _hash_run, Hh. simpl.
    case_bool_decide; [| congruence]. simpl.
    rewrite ?read_text_run; simpl. rewrite Ht. done.
  - rewrite _hash_run, Hcached. simpl. rewrite _hash_run, Hh. simpl.
    case_bool_decide; [| congruence]. simpl.
    rewrite ?read_text_run; simpl. rewrite Ht. done.
Qed.

Lemma generate_header_excluded st static c base cached :
  DEFAULT_STATIC_FILES_PATH E = Some static ->
  static <> [] ->
  resources st !! str "config_dir" = Some (VStr c) ->
  os_path_isfile fs (custom_css_filename c) = true ->
  file_text utf8_decode fs (sheet_filename E) = Ok base ->
  match _default_css_hash (self st) with
  | Some h => cached = h
  | None => file_hash E fs (default_css_filename static) = Ok cached
  end ->
  file_hash E fs (custom_css_filename c) = Ok cached ->
  (_generate_header E fs st).2
  = Ok [base; get_style_defs E (highlight_class (self st))]
  /\ List.filter (at_site custom_read) (reads (_generate_header E fs st).1)
     = List.filter (at_site custom_read) (reads st).
Proof.
  intros HD Hs Hc Hf Hb Hcached Hh. destruct static as [| x static];
    [done |].
  destruct st as [[cls field] res log]. simpl in *.
  unfold custom_css_filename in *. run_call.
  rewrite Hb. simpl. rewrite Hc. simpl. rewrite Hf, HD.
  destruct field as [h |]; simpl.
  - subst h. rewrite _hash_run, Hh. simpl.
    case_bool_decide; [congruence |]. simpl.
    rewrite !at_site_app. simpl. by rewrite !app_nil_r.
  - rewrite _hash_run, Hcached. simpl. rewrite _hash_run, Hh. simpl.
    case_bool_decide; [congruence |]. simpl.
    rewrite !at_site_app. simpl. by rewrite !app_nil_r.
Qed.

Lemma file_text_agree (decode : bytes -> option pystr)
    (fs1 fs2 : filesystem) (filename : pystr) :
  fs1 !! filename = fs2 !! filename ->
  file_text decode fs1 filename = file_text decode fs2 filename.
Proof. intros H. unfold file_text. by rewrite H. Qed.

Lemma file_hash_agree (fs1 fs2 : filesystem) (filename : pystr) :
  fs1 !! filename = fs2 !! filename ->
  file_hash E fs1 filename = file_hash E fs2 filename.
Proof. intros H. unfold file_hash. by rewrite (file_text_agree _ _ _ _ H). Qed.

Lemma os_path_isfile_agree (fs1 fs2 : filesystem) (filename : pystr) :
  fs1 !! filename = fs2 !! filename ->
  os_path_isfile fs1 filename = os_path_isfile fs2 filename.
Proof. intros H. unfold os_path_isfile. by rewrite H. Qed.

(** With a digest cached, a call reads the file system only at the base
    style sheet and at the custom file. *)
Lemma generate_header_cached_files fs' st h :
  _default_css_hash (self st) = Some h ->
  fs' !! sheet_filename E = fs !! sheet_filename E ->
  (forall c, resources st !! str "config_dir" = Some (VStr c) ->
             fs' !! custom_css_filename c = fs !! custom_css_filename c) ->
  _generate_header E fs' st = _generate_header E fs st.
Proof.
  intros Hsome Hsheet Hcustom.
  destruct st as [[cls field] res log]. simpl in *. subst field.
  unfold custom_css_filename in *. run_call.
  rewrite (file_text_agree _ _ _ _ Hsheet).
  destruct (file_text utf8_decode fs (sheet_filename E)); simpl;
    [| reflexivity].
  destruct (res !! str "config_dir") as [[| c | |] |]; try reflexivity.
  simpl. specialize (Hcustom c eq_refl).
  rewrite (os_path_isfile_agree _ _ _ Hcustom).
  destruct (os_path_isfile fs _); [| reflexivity].
  destruct (DEFAULT_STATIC_FILES_PATH E) as [[| x static] |]; simpl;
    rewrite !_hash_run, (file_hash_agree _ _ _ Hcustom),
      (file_text_agree _ _ _ _ Hcustom); reflexivity.
Qed.


(** Running [_generate_header] again on the instance it left, with the
    same [config_dir], gives the same result and leaves the instance. *)
Lemma generate_header_again st res1 log1 :
  res1 !! str "config_dir" = resources st !! str "config_dir" ->
  (_generate_header E fs
     {| self := self (_generate_header E fs st).1;
        resources := res1; reads := log1 |}).2
  = (_generate_header E fs st).2
  /\ self (_generate_header E fs
             {| self := self (_generate_header E fs st).1;
                resources := res1; reads := log1 |}).1
     = self (_generate_header E fs st).1.
Proof.
  intros Hcfg.
  pose proof (generate_header_cache E fs st) as Hc.
  destruct (generate_header_frame E fs st) as (_ & Hcls & _).
  destruct st as [[cls f] res log]. simpl in Hcfg, Hc, Hcls.
  destruct (self (_generate_header E fs
                    {| self := {| highlight_class := cls;
                                  _default_css_hash := f |};
                       resources := res; reads := log |}).1)
    as [cls1 f1] eqn:Hg.
  simpl in Hc, Hcls. subst cls1.
  assert (Hsame : f1 = f ->
    (_generate_header E fs
       {| self := {| highlight_class := cls; _default_css_hash := f1 |};
          resources := res1; reads := log1 |}).2
    = (_generate_header E fs
         {| self := {| highlight_class := cls; _default_css_hash := f |};
            resources := res; reads := log |}).2
    /\ self (_generate_header E fs
               {| self := {| highlight_class := cls;
                             _default_css_hash := f1 |};
                  resources := res1; reads := log1 |}).1
       = {| highlight_class := cls; _default_css_hash := f1 |}).
  { intros ->.
    destruct (generate_header_config_only
                {| highlight_class := cls; _default_css_hash := f |}
                res1 res log1 log Hcfg) as [-> ->].
    split; [reflexivity | exact Hg]. }
  destruct f as [h |].
  - destruct Hc as (-> & _). by apply Hsame.
  - destruct Hc as [[-> _] | (static & hd & HD & Hs & Hd & -> & _)];
      [by apply Hsame |].
    split.
    + destruct (generate_header_config_only
                  {| highlight_class := cls; _default_css_hash := Some hd |}
                  res1 res log1 log Hcfg) as [-> _].
      apply (generate_header_warm cls res log log static hd HD Hs Hd).
    + pose proof (generate_header_cache E fs
                    {| self := {| highlight_class := cls;
                                  _default_css_hash := Some hd |};
                       resources := res1; reads := log1 |}) as Hc1.
      destruct (generate_header_frame E fs
                  {| self := {| highlight_class := cls;
                                _default_css_hash := Some hd |};
                     resources := res1; reads := log1 |}) as (_ & Hcls1 & _).
      simpl in Hc1, Hcls1.
      apply instance_eq; [exact Hcls1 | apply Hc1].
Qed.

End Further.

(** On one file system the cache, when set, holds the hash of the default
    style sheet as it is. *)
Lemma history_on_cache E fs obj :
  history_on E fs obj ->
  _default_css_hash obj = None
  \/ exists static hd,
       DEFAULT_STATIC_FILES_PATH E = Some static
       /\ static <> []
       /\ file_hash E fs (default_css_filename static) = Ok hd
       /\ _default_css_hash obj = Some hd.
Proof.
  induction 1 as [cls | obj log res Hh IH]; [by left |].
  unfold after_call. simpl.
  destruct (preprocess_self E fs tt
              {| self := obj; resources := res; reads := log |}) as [-> _].
  pose proof (generate_header_cache E fs
                (cleared {| self := obj; resources := res; reads := log |}))
    as Hc.
  simpl in Hc. destruct IH as [Hnone | (static & hd & HD & Hs & Hd & Hsome)].
  - rewrite Hnone in Hc.
    destruct Hc as [[-> _] | (static & h & HD & Hs & Hd & -> & _)];
      [by left | right; eauto 10].
  - rewrite Hsome in Hc. destruct Hc as (-> & _). right. eauto 10.
Qed.

(** X1. Of the dictionary, only [config_dir] matters: two calls on equal
    instances whose dictionaries agree on [config_dir] produce the same
    blocks or the same exception, and leave equal instances. *)
Theorem outcome_depends_on_config_dir {NB} E fs (nb nb2 : NB) st st2 :
  self st = self st2 ->
  resources st !! str "config_dir" = resources st2 !! str "config_dir" ->
  css_outcome (preprocess E fs nb st) = css_outcome (preprocess E fs nb2 st2)
  /\ self (preprocess E fs nb st).1 = self (preprocess E fs nb2 st2).1.
Proof.
  intros Hself Hc. rewrite !css_outcome_run.
  destruct (preprocess_self E fs nb st) as [-> _].
  destruct (preprocess_self E fs nb2 st2) as [-> _].
  destruct st as [obj res log], st2 as [obj2 res2 log2]. simpl in *. subst obj2.
  destruct (generate_header_config_only E fs obj
              (<[str "inlining" := VDict ∅]> res)
              (<[str "inlining" := VDict ∅]> res2) log log2) as [Hr Hs].
  { rewrite !lookup_insert_ne by discriminate. exact Hc. }
  unfold cleared. simpl. rewrite Hr. split; [reflexivity | exact Hs].
Qed.

Lemma outcome_depends_on_config_dir_witness :
  resources (start fresh jupyter_resources) !! str "config_dir"
  = resources (start fresh resources_with_js) !! str "config_dir"
  /\ css_outcome (preprocess utf8_env (disk lf_css crlf_css) tt
                   (start fresh jupyter_resources))
     = css_outcome (preprocess utf8_env (disk lf_css crlf_css) tt
                      (start fresh resources_with_js)).
Proof.
  assert (H : resources (start fresh jupyter_resources) !! str "config_dir"
              = resources (start fresh resources_with_js) !! str "config_dir")
    by (vm_compute; reflexivity).
  split; [exact H |].
  exact (proj1 (outcome_depends_on_config_dir utf8_env (disk lf_css crlf_css)
                  tt tt _ _ eq_refl H)).
Defined.

(** X2. Calling again on the same file system changes nothing: the second
    call returns what the first returned, the same blocks or the same
    exception, and leaves the instance and the dictionary as the first
    call left them. *)
Theorem preprocess_again {NB} E fs (nb : NB) st :
  (preprocess E fs nb (preprocess E fs nb st).1).2 = (preprocess E fs nb st).2
  /\ self (preprocess E fs nb (preprocess E fs nb st).1).1
     = self (preprocess E fs nb st).1
  /\ resources (preprocess E fs nb (preprocess E fs nb st).1).1
     = resources (preprocess E fs nb st).1.
Proof.
  rewrite (preprocess_shape E fs nb st). cbv zeta. cbn [fst snd].
  set (g := _generate_header E fs (cleared st)).
  set (d := match g.2 with
            | Ok header => {[str "css" := css_blocks header]}
            | Raise _ => ∅
            end).
  set (st1 := {| self := self g.1;
                 resources := <[str "inlining" := VDict d]> (resources st);
                 reads := reads g.1 |}).
  rewrite preprocess_shape. cbv zeta. cbn [fst snd self resources reads].
  destruct (generate_header_again E fs (cleared st)
              (resources (cleared st1)) (reads (cleared st1))) as [H2 H1].
  { rewrite !cleared_config_dir. apply lookup_insert_ne. discriminate. }
  fold g in H2, H1.
  change {| self := self g.1; resources := resources (cleared st1);
            reads := reads (cleared st1) |} with (cleared st1) in H2, H1.
  rewrite H2, H1. subst st1 d. cbn [resources].
  destruct g.2; rewrite !insert_insert_eq; repeat split; reflexivity.
Qed.

(** X3. Memoisation does not show while the files stay the same: an
    instance whose earlier calls all ran on the file system of this call
    produces what a new instance of the same highlight class produces. *)
Theorem memoisation_transparent {NB} E fs (nb : NB) obj res log log2 :
  history_on E fs obj ->
  css_outcome (preprocess E fs nb
                 {| self := obj; resources := res; reads := log |})
  = css_outcome (preprocess E fs nb
                   {| self := __init__ (highlight_class obj);
                      resources := res; reads := log2 |}).
Proof.
  intros Hh. rewrite !css_outcome_run. unfold cleared, __init__. simpl.
  destruct (history_on_cache E fs obj Hh)
    as [Hnone | (static & hd & HD & Hs & Hd & Hsome)];
    destruct obj as [cls field]; simpl in *; subst field.
  - by destruct (generate_header_config_only E fs
                   {| highlight_class := cls; _default_css_hash := None |}
                   (<[str "inlining" := VDict ∅]> res)
                   (<[str "inlining" := VDict ∅]> res) log log2 eq_refl)
      as [-> _].
  - by rewrite (generate_header_warm E fs cls _ log2 log static hd HD Hs Hd).
Qed.

Lemma memoisation_transparent_witness :
  let fs := disk (ascii_bytes "X{}") (ascii_bytes "X{color:blue}") in
  let used := (after_call utf8_env fs jupyter_resources (fresh, [])).1 in
  history_on utf8_env fs used
  /\ _default_css_hash used = Some (MD5.digest (ascii_bytes "X{}"))
  /\ css_outcome (preprocess utf8_env fs tt (start used jupyter_resources))
     = css_outcome (preprocess utf8_env fs tt (start fresh jupyter_resources)).
Proof.
  intros fs used.
  assert (Hh : history_on utf8_env fs used)
    by apply (history_on_call utf8_env fs fresh [] jupyter_resources),
             history_on_init.
  split; [exact Hh |]. split; [vm_compute; reflexivity |].
  exact (memoisation_transparent utf8_env fs tt used jupyter_resources [] [] Hh).
Defined.



(** X5. When the base style sheet cannot be read the call fails with
    the error of that read, whatever the dictionary holds: no other file
    is opened, the cached hash is untouched and
    [resources['inlining']] is already the empty dictionary. *)
Theorem unreadable_sheet_fails_first {NB} E fs (nb : NB) st e :
  file_text utf8_decode fs (sheet_filename E) = Raise e ->
  exists st',
    preprocess E fs nb st = (st', Raise e)
    /\ resources st' = <[str "inlining" := VDict ∅]> (resources st)
    /\ self st' = self st
    /\ reads st' = reads st ++ [(sheet_read, sheet_filename E, false)].
Proof.
  intros Hb. rewrite preprocess_shape.
  rewrite (generate_header_without_sheet E fs (cleared st) e Hb).
  simpl. eexists. split; [reflexivity |]. done.
Qed.

Lemma unreadable_sheet_fails_first_witness :
  let fs := <[sheet_path := Dir]>
              (<[custom_path := File true (ascii_bytes "X{}")]> ∅) in
  file_text utf8_decode fs (sheet_filename utf8_env)
  = Raise (OSError sheet_path)
  /\ exists st',
       preprocess utf8_env fs tt (start fresh jupyter_resources)
       = (st', Raise (OSError sheet_path))
       /\ reads st' = [(sheet_read, sheet_path, false)].
Proof.
  intros fs.
  assert (H : file_text utf8_decode fs (sheet_filename utf8_env)
              = Raise (OSError sheet_path)) by (vm_compute; reflexivity).
  split; [exact H |].
  destruct (unreadable_sheet_fails_first utf8_env fs tt
              (start fresh jupyter_resources) _ H)
    as (st' & Hrun & _ & _ & Hreads).
  exists st'. split; [exact Hrun |]. rewrite Hreads. reflexivity.
Defined.

(** X6. The files of a call are opened in the order of the source, each
    place at most once: the base style sheet first, then the default for
    its hash, the custom file for its hash and the custom file for its
    text, the default only before the custom file and the text only after
    the hash.  Every read but the last returned, and all of them when the
    call returned normally. *)
Theorem reads_in_source_order {NB} E fs (nb : NB) st :
  exists new,
    reads (preprocess E fs nb st).1 = reads st ++ new
    /\ In (sites new)
         [[sheet_read];
          [sheet_read; custom_hash_read];
          [sheet_read; custom_hash_read; custom_read];
          [sheet_read; default_hash_read];
          [sheet_read; default_hash_read; custom_hash_read];
          [sheet_read; default_hash_read; custom_hash_read; custom_read]]
    /\ Forall (fun ev => ev.2 = true)
         (if completed (preprocess E fs nb st).2 then new
          else removelast new).
Proof.
  destruct (generate_header_reads_order E fs (cleared st))
    as (new & Hr & Hs & Hall).
  exists new. rewrite preprocess_shape. simpl.
  split; [exact Hr |]. split; [exact Hs |].
  by destruct (_generate_header E fs (cleared st)).2.
Qed.

(** X7. A custom file that is there but cannot be read for hashing is
    fatal: the call fails with the error of that read, stores no blocks
    and never opens the file for its text.  A default hash computed
    earlier in the same call stays cached all the same. *)
Theorem unreadable_custom_is_fatal {NB} E fs (nb : NB) st c base e :
  resources st !! str "config_dir" = Some (VStr c) ->
  os_path_isfile fs (custom_css_filename c) = true ->
  file_text utf8_decode fs (sheet_filename E) = Ok base ->
  (forall static,
     DEFAULT_STATIC_FILES_PATH E = Some static -> static <> [] ->
     _default_css_hash (self st) = None ->
     exists hd, file_hash E fs (default_css_filename static) = Ok hd) ->
  file_hash E fs (custom_css_filename c) = Raise e ->
  (preprocess E fs nb st).2 = Raise e
  /\ inlining_css (resources (preprocess E fs nb st).1) = None
  /\ List.filter (at_site custom_read) (reads (preprocess E fs nb st).1)
     = List.filter (at_site custom_read) (reads st)
  /\ (forall static hd,
        DEFAULT_STATIC_FILES_PATH E = Some static -> static <> [] ->
        _default_css_hash (self st) = None ->
        file_hash E fs (default_css_filename static) = Ok hd ->
        _default_css_hash (self (preprocess E fs nb st).1) = Some hd).
Proof.
  intros Hc Hf Hb Hdef He.
  destruct (generate_header_custom_hash_fails E fs (cleared st) c base e)
    as (Hr & Hreads & Hcache); try done.
  { by rewrite cleared_config_dir. }
  rewrite preprocess_shape. simpl. rewrite Hr.
  rewrite inlining_css_insert, lookup_empty. done.
Qed.

Lemma unreadable_custom_is_fatal_witness :
  let fs := disk_with_node (File false (ascii_bytes "X{color:blue}")) in
  let st := start fresh jupyter_resources in
  os_path_isfile fs custom_path = true
  /\ (preprocess utf8_env fs tt st).2 = Raise (OSError custom_path)
  /\ _default_css_hash (self (preprocess utf8_env fs tt st).1)
     = Some (MD5.digest (ascii_bytes "X{}")).
Proof.
  intros fs st.
  assert (H1 : resources st !! str "config_dir"
               = Some (VStr (str "/home/u/.jupyter")))
    by (vm_compute; reflexivity).
  assert (H2 : os_path_isfile fs (custom_css_filename (str "/home/u/.jupyter"))
               = true) by (vm_compute; reflexivity).
  assert (H3 : file_text utf8_decode fs (sheet_filename utf8_env)
               = Ok (str "body{color:red}")) by (vm_compute; reflexivity).
  assert (H4 : file_hash utf8_env fs
                 (default_css_filename (str "/pkg/notebook/static"))
               = Ok (MD5.digest (ascii_bytes "X{}")))
    by (vm_compute; reflexivity).
  assert (H5 : forall static,
             DEFAULT_STATIC_FILES_PATH utf8_env = Some static ->
             static <> [] -> _default_css_hash (self st) = None ->
             exists hd, file_hash utf8_env fs (default_css_filename static)
                        = Ok hd).
  { intros static [= <-] _ _. eexists. exact H4. }
  assert (H6 : file_hash utf8_env fs
                 (custom_css_filename (str "/home/u/.jupyter"))
               = Raise (OSError custom_path)) by (vm_compute; reflexivity).
  split; [exact H2 |].
  destruct (unreadable_custom_is_fatal utf8_env fs tt st _ _ _ H1 H2 H3 H5 H6)
    as (Hr & _ & _ & Hcache).
  split; [exact Hr |].
  apply (Hcache (str "/pkg/notebook/static")); try done.
Defined.

(** X8. A custom file chosen for inclusion that cannot be read as UTF-8
    is fatal as well: the call fails with the error of the read of line
    83 and stores no blocks, though the hash comparison has been made and
    the default hash is cached. *)
Theorem undecodable_custom_is_fatal {NB} E fs (nb : NB) st static c base
    cached hc e :
  DEFAULT_STATIC_FILES_PATH E = Some static ->
  static <> [] ->
  resources st !! str "config_dir" = Some (VStr c) ->
  os_path_isfile fs (custom_css_filename c) = true ->
  file_text utf8_decode fs (sheet_filename E) = Ok base ->
  match _default_css_hash (self st) with
  | Some h => cached = h
  | None => file_hash E fs (default_css_filename static) = Ok cached
  end ->
  file_hash E fs (custom_css_filename c) = Ok hc ->
  hc <> cached ->
  file_text utf8_decode fs (custom_css_filename c) = Raise e ->
  (preprocess E fs nb st).2 = Raise e
  /\ inlining_css (resources (preprocess E fs nb st).1) = None
  /\ _default_css_hash (self (preprocess E fs nb st).1) = Some cached.
Proof.
  intros HD Hs Hc Hf Hb Hcached Hh Hne Ht.
  destruct (generate_header_custom_text_fails E fs (cleared st) static c base
              cached hc e) as (Hr & Hfield); try done.
  { by rewrite cleared_config_dir. }
  rewrite preprocess_shape. simpl. rewrite Hr.
  rewrite inlining_css_insert, lookup_empty. done.
Qed.

Lemma undecodable_custom_is_fatal_witness :
  let fs := disk (ascii_bytes "X{}") [xff] in
  let st := start fresh jupyter_resources in
  file_hash latin1_env fs custom_path = Ok (MD5.digest [xc3; xbf])
  /\ (preprocess latin1_env fs tt st).2 = Raise UnicodeDecodeError
  /\ inlining_css (resources (preprocess latin1_env fs tt st).1) = None.
Proof.
  intros fs st.
  assert (H1 : DEFAULT_STATIC_FILES_PATH latin1_env
               = Some (str "/pkg/notebook/static")) by reflexivity.
  assert (H2 : str "/pkg/notebook/static" <> []) by discriminate.
  assert (H3 : resources st !! str "config_dir"
               = Some (VStr (str "/home/u/.jupyter")))
    by (vm_compute; reflexivity).
  assert (H4 : os_path_isfile fs (custom_css_filename (str "/home/u/.jupyter"))
               = true) by (vm_compute; reflexivity).
  assert (H5 : file_text utf8_decode fs (sheet_filename latin1_env)
               = Ok (str "body{color:red}")) by (vm_compute; reflexivity).
  assert (H6 : file_hash latin1_env fs
                 (default_css_filename (str "/pkg/notebook/static"))
               = Ok (MD5.digest (ascii_bytes "X{}")))
    by (vm_compute; reflexivity).
  assert (H7 : file_hash latin1_env fs
                 (custom_css_filename (str "/home/u/.jupyter"))
               = Ok (MD5.digest [xc3; xbf])) by (vm_compute; reflexivity).
  assert (H8 : MD5.digest [xc3; xbf] <> MD5.digest (ascii_bytes "X{}"))
    by (vm_compute; discriminate).
  assert (H9 : file_text utf8_decode fs
                 (custom_css_filename (str "/home/u/.jupyter"))
               = Raise UnicodeDecodeError) by (vm_compute; reflexivity).
  split; [exact H7 |].
  destruct (undecodable_custom_is_fatal latin1_env fs tt st _ _ _ _ _ _
              H1 H2 H3 H4 H5 H6 H7 H8 H9) as (Hr & Hcss & _).
  split; [exact Hr | exact Hcss].
Defined.

(** X9. A custom file whose hash is the cached default hash is skipped
    without being opened for its text: the call returns the two blocks
    even when the file is not valid UTF-8. *)
Theorem unmodified_custom_is_not_read {NB} E fs (nb : NB) st static c base
    cached :
  DEFAULT_STATIC_FILES_PATH E = Some static ->
  static <> [] ->
  resources st !! str "config_dir" = Some (VStr c) ->
  os_path_isfile fs (custom_css_filename c) = true ->
  file_text utf8_decode fs (sheet_filename E) = Ok base ->
  match _default_css_hash (self st) with
  | Some h => cached = h
  | None => file_hash E fs (default_css_filename static) = Ok cached
  end ->
  file_hash E fs (custom_css_filename c) = Ok cached ->
  css_outcome (preprocess E fs nb st)
  = Ok (Some (css_blocks
                [base; get_style_defs E (highlight_class (self st))]))
  /\ List.filter (at_site custom_read) (reads (preprocess E fs nb st).1)
     = List.filter (at_site custom_read) (reads st).
Proof.
  intros HD Hs Hc Hf Hb Hcached Hh.
  destruct (generate_header_excluded E fs (cleared st) static c base cached)
    as (Hr & Hreads); try done.
  { by rewrite cleared_config_dir. }
  rewrite css_outcome_run, Hr. split; [reflexivity |].
  by destruct (preprocess_self E fs nb st) as [_ ->].
Qed.

Lemma unmodified_custom_is_not_read_witness :
  let fs := disk [xff] [xff] in
  let st := start fresh jupyter_resources in
  file_text utf8_decode fs custom_path = Raise UnicodeDecodeError
  /\ css_outcome (preprocess latin1_env fs tt st)
     = Ok (Some (css_blocks
                   [str "body{color:red}";
                    get_style_defs latin1_env default_highlight_class])).
Proof.
  intros fs st.
  assert (H1 : DEFAULT_STATIC_FILES_PATH latin1_env
               = Some (str "/pkg/notebook/static")) by reflexivity.
  assert (H2 : str "/pkg/notebook/static" <> []) by discriminate.
  assert (H3 : resources st !! str "config_dir"
               = Some (VStr (str "/home/u/.jupyter")))
    by (vm_compute; reflexivity).
  assert (H4 : os_path_isfile fs (custom_css_filename (str "/home/u/.jupyter"))
               = true) by (vm_compute; reflexivity).
  assert (H5 : file_text utf8_decode fs (sheet_filename latin1_env)
               = Ok (str "body{color:red}")) by (vm_compute; reflexivity).
  assert (H6 : file_hash latin1_env fs
                 (default_css_filename (str "/pkg/notebook/static"))
               = Ok (MD5.digest [xc3; xbf])) by (vm_compute; reflexivity).
  assert (H7 : file_hash latin1_env fs
                 (custom_css_filename (str "/home/u/.jupyter"))
               = Ok (MD5.digest [xc3; xbf])) by (vm_compute; reflexivity).
  split; [vm_compute; reflexivity |].
  exact (proj1 (unmodified_custom_is_not_read latin1_env fs tt st _ _ _ _
                  H1 H2 H3 H4 H5 H6 H7)).
Defined.

(** X10. An empty [DEFAULT_STATIC_FILES_PATH] counts as none: line 80
    tests the string for truth, so every call behaves as it does where
    the import of the path failed. *)
Theorem empty_static_path_is_no_path {NB} E fs (nb : NB) st :
  DEFAULT_STATIC_FILES_PATH E = Some [] ->
  preprocess E fs nb st
  = preprocess {| resources_dir := resources_dir E;
                  DEFAULT_STATIC_FILES_PATH := None;
                  locale_decode := locale_decode E;
                  str_to_bytes := str_to_bytes E;
                  get_style_defs := get_style_defs E |} fs nb st.
Proof.
  destruct E as [dir static dec enc css]. simpl. intros ->. reflexivity.
Qed.

Lemma empty_static_path_is_no_path_witness :
  DEFAULT_STATIC_FILES_PATH empty_static_env = Some []
  /\ css_outcome (preprocess empty_static_env
                   (disk (ascii_bytes "X{}") (ascii_bytes "X{}")) tt
                   (start fresh jupyter_resources))
     = Ok (Some (css_blocks
                   [str "body{color:red}";
                    get_style_defs utf8_env default_highlight_class;
                    str "X{}"])).
Proof.
  assert (H : DEFAULT_STATIC_FILES_PATH empty_static_env = Some [])
    by reflexivity.
  split; [exact H |].
  rewrite (empty_static_path_is_no_path empty_static_env _ tt _ H).
  vm_compute. reflexivity.
Defined.

Lemma utf8_decode_ascii (bs : bytes) :
  Forall (fun b => byte_val b < 128) bs ->
  utf8_decode bs = Some (map byte_val bs).
Proof.
  induction 1 as [| b bs Hb _ IH]; [reflexivity |].
  cbn [utf8_decode map]. rewrite (proj2 (N.ltb_lt _ _) Hb), IH. reflexivity.
Qed.

Lemma utf8_encode_ascii (s : pystr) :
  Forall (fun c => c < 128) s ->
  utf8_encode_replace s = map byte_of s.
Proof.
  induction 1 as [| c s Hc _ IH]; [reflexivity |].
  unfold utf8_encode_replace in *. cbn [map concat]. rewrite IH.
  unfold utf8_encode_cp. by rewrite (proj2 (N.ltb_lt _ _) Hc).
Qed.

Lemma byte_val_of (b : byte) : byte_of (byte_val b) = b.
Proof.
  unfold byte_of, byte_val.
  rewrite N.mod_small by (pose proof (Byte.to_N_bounded b); lia).
  by rewrite Byte.of_to_N.
Qed.

(** Newline translation only ever puts a line feed in. *)
Lemma universal_newlines_Forall (P : N -> Prop) (s : pystr) :
  P 10 -> Forall P s -> Forall P (universal_newlines s).
Proof.
  intros H10.
  assert (Hboth : Forall P s ->
            Forall P (universal_newlines s)
            /\ forall c, P c -> Forall P (universal_newlines (c :: s))).
  { induction s as [| a r IH].
    - intros _. split; [constructor |].
      intros c Hc. cbn. destruct (c =? 13); repeat constructor; done.
    - intros Har. inversion Har as [| ? ? Ha Hr]; subst.
      destruct (IH Hr) as [IH1 IH2]. split; [by apply IH2 |].
      intros c Hc. cbn [universal_newlines].
      destruct (c =? 13).
      + constructor; [done |]. destruct (a =? 10); [done | by apply IH2].
      + constructor; [done | by apply IH2]. }
  intros Hs. by apply Hboth.
Qed.

Lemma universal_newlines_without_cr (s : pystr) :
  13 ∉ s -> universal_newlines s = s.
Proof.
  induction s as [| c r IH]; [done |].
  intros Hn. apply not_elem_of_cons in Hn as [Hc Hr].
  cbn [universal_newlines].
  destruct (N.eqb_spec c 13) as [-> | _]; [done |].
  by rewrite IH.
Qed.

(** X11. With UTF-8 as the codec of [open] and of [str_to_bytes], the
    hash of a file of ASCII bytes is the MD5 digest of these bytes after
    newline translation; it is the MD5 digest of the file as stored when
    the file holds no carriage return. *)
Theorem hash_of_ascii_file E fs site filename st content :
  locale_decode E = utf8_decode ->
  str_to_bytes E = utf8_encode_replace ->
  fs !! filename = Some (File true content) ->
  Forall (fun b => byte_val b < 128) content ->
  (_hash E fs site filename st).2
  = Ok (MD5.digest
          (map byte_of (universal_newlines (map byte_val content))))
  /\ (x0d ∉ content ->
      (_hash E fs site filename st).2 = Ok (MD5.digest content)).
Proof.
  intros Hdec Henc Hfile Hascii.
  assert (Hrun : (_hash E fs site filename st).2
                 = Ok (MD5.digest (map byte_of
                         (universal_newlines (map byte_val content))))).
  { rewrite _hash_run. simpl. unfold file_hash, file_text.
    rewrite Hfile, Hdec, Henc, (utf8_decode_ascii content Hascii).
    rewrite utf8_encode_ascii; [reflexivity |].
    apply universal_newlines_Forall; [done |].
    by apply Forall_map. }
  split; [exact Hrun |].
  intros Hcr. rewrite Hrun, universal_newlines_without_cr.
  - rewrite map_map, (map_ext _ id), map_id; [done |].
    intros b. apply byte_val_of.
  - intros Hin. apply list_elem_of_fmap in Hin as (b & Hb & Hin).
    assert (b = x0d) as ->; [| done].
    rewrite <- (byte_val_of b), <- Hb. reflexivity.
Qed.

Lemma hash_of_ascii_file_witness :
  let fs := disk lf_css crlf_css in
  let st := start fresh jupyter_resources in
  (_hash utf8_env fs default_hash_read default_path st).2
  = Ok (MD5.digest lf_css)
  /\ (_hash utf8_env fs custom_hash_read custom_path st).2
     = Ok (MD5.digest lf_css).
Proof.
  intros fs st.
  assert (Hlf : Forall (fun b => byte_val b < 128) lf_css)
    by (repeat constructor).
  assert (Hcrlf : Forall (fun b => byte_val b < 128) crlf_css)
    by (repeat constructor).
  assert (H1 : fs !! default_path = Some (File true lf_css))
    by (vm_compute; reflexivity).
  assert (H2 : fs !! custom_path = Some (File true crlf_css))
    by (vm_compute; reflexivity).
  assert (H3 : x0d ∉ lf_css).
  { intros Hin. repeat (apply elem_of_cons in Hin as [Hin | Hin];
                        [discriminate |]).
    by apply elem_of_nil in Hin. }
  split.
  - exact (proj2 (hash_of_ascii_file utf8_env fs default_hash_read
                    default_path st lf_css eq_refl eq_refl H1 Hlf) H3).
  - exact (proj1 (hash_of_ascii_file utf8_env fs custom_hash_read
                    custom_path st crlf_css eq_refl eq_refl H2 Hcrlf)).
Defined.

(** X12. Invariants of an instance over any sequence of calls: a cached
    hash is always a 16-byte digest, and no call changes the highlight
    class the instance was made with. *)
Theorem instance_invariants E obj log :
  history E obj log ->
  (forall h, _default_css_hash obj = Some h -> length h = 16%nat)
  /\ (forall fs res,
        highlight_class (after_call E fs res (obj, log)).1
        = highlight_class obj).
Proof.
  intros Hh. split.
  - induction Hh as [cls | obj log fs res Hh IH]; [discriminate |].
    unfold after_call. simpl. intros h.
    destruct (preprocess_self E fs tt
                {| self := obj; resources := res; reads := log |}) as [-> _].
    pose proof (generate_header_cache E fs
                  (cleared {| self := obj; resources := res; reads := log |}))
      as Hc.
    simpl in Hc. destruct (_default_css_hash obj) as [h0 |].
    + destruct Hc as (-> & _). intros [= <-]. by apply IH.
    + destruct Hc as [[-> _] | (static & hd & _ & _ & Hd & -> & _)];
        [discriminate |].
      intros [= <-]. unfold file_hash in Hd.
      destruct (file_text _ _ _); [| discriminate].
      injection Hd as <-. apply digest_length.
  - intros fs res. unfold after_call. simpl.
    destruct (preprocess_self E fs tt
                {| self := obj; resources := res; reads := log |}) as [-> _].
    by destruct (generate_header_frame E fs
                   (cleared {| self := obj; resources := res; reads := log |}))
      as (_ & -> & _).
Qed.

Lemma instance_invariants_witness :
  let once :=
    after_call utf8_env (disk (ascii_bytes "X{}") (ascii_bytes "Y{}"))
      jupyter_resources (fresh, []) in
  history utf8_env once.1 once.2
  /\ (exists h, _default_css_hash once.1 = Some h /\ length h = 16%nat)
  /\ highlight_class once.1 = default_highlight_class.
Proof.
  intros once.
  assert (Hh : history utf8_env once.1 once.2)
    by (apply history_call, history_init).
  split; [exact Hh |].
  destruct (instance_invariants utf8_env once.1 once.2 Hh) as [Hlen _].
  destruct (instance_invariants utf8_env fresh [] (history_init _ _))
    as [_ Hcls].
  split; [| apply Hcls].
  exists (MD5.digest (ascii_bytes "X{}")).
  assert (Hf : _default_css_hash once.1 = Some (MD5.digest (ascii_bytes "X{}")))
    by (vm_compute; reflexivity).
  split; [exact Hf | exact (Hlen _ Hf)].
Defined.

(** X13. Once a digest is cached the default style sheet is not
    consulted any more: a call gives the same result, reads included, on
    any file system that has the same base style sheet and the same
    custom file, whatever has become of the default. *)
Theorem cached_default_is_not_consulted {NB} E fs fs' (nb : NB) st h :
  _default_css_hash (self st) = Some h ->
  fs' !! sheet_filename E = fs !! sheet_filename E ->
  (forall c, resources st !! str "config_dir" = Some (VStr c) ->
             fs' !! custom_css_filename c = fs !! custom_css_filename c) ->
  preprocess E fs' nb st = preprocess E fs nb st.
Proof.
  intros Hsome Hsheet Hcustom.
  rewrite (preprocess_shape E fs' nb st), (preprocess_shape E fs nb st).
  rewrite (generate_header_cached_files E fs fs' (cleared st) h);
    [reflexivity | exact Hsome | exact Hsheet |].
  intros c. rewrite cleared_config_dir. apply Hcustom.
Qed.

Lemma cached_default_is_not_consulted_witness :
  let fs := disk (ascii_bytes "X{}") (ascii_bytes "X{}") in
  let fs' := delete default_path fs in
  let used := (after_call utf8_env fs jupyter_resources (fresh, [])).1 in
  _default_css_hash used = Some (MD5.digest (ascii_bytes "X{}"))
  /\ fs' !! default_path = None
  /\ preprocess utf8_env fs' tt (start used jupyter_resources)
     = preprocess utf8_env fs tt (start used jupyter_resources).
Proof.
  intros fs fs' used.
  assert (H1 : _default_css_hash (self (start used jupyter_resources))
               = Some (MD5.digest (ascii_bytes "X{}")))
    by (vm_compute; reflexivity).
  assert (H2 : fs' !! sheet_filename utf8_env = fs !! sheet_filename utf8_env)
    by (vm_compute; reflexivity).
  assert (H3 : forall c,
             resources (start used jupyter_resources) !! str "config_dir"
             = Some (VStr c) ->
             fs' !! custom_css_filename c = fs !! custom_css_filename c).
  { intros c Hc.
    assert (c = str "/home/u/.jupyter") as ->
      by (vm_compute in Hc; injection Hc as <-; reflexivity).
    vm_compute. reflexivity. }
  split; [exact H1 |]. split; [vm_compute; reflexivity |].
  exact (cached_default_is_not_consulted utf8_env fs fs' tt _ _ H1 H2 H3).
Defined.

